(** * The update-resource handler: PATCH /resources/{resourceId}

    A shallow embedding of [handler] from
    [src/handlers/resources/update_resource.py] and the properties its
    specification states about it.

    The handler is one Python function.  It reads two keys of the API
    Gateway event, parses the body with [json.loads], reads and then updates
    one item of a DynamoDB table, and returns a response dictionary.  The
    embedding keeps that shape: Python statements become a small monad with
    three ways of completing (fall through, [return], [raise]); the table,
    the clock and standard output are the state the monad threads. *)

From Stdlib Require Import ZArith String Ascii List.
From Stdlib Require Import Floats.SpecFloat.
From stdpp Require Import base option gmap strings list fin_maps.

Set Warnings "-register-all".
Local Open Scope Z_scope.
Local Open Scope string_scope.
Local Open Scope list_scope.
Local Open Scope stdpp_scope.

(** ** Python values

    The values [json.loads] produces, which are also the attribute values of
    a stored record: [None], [bool], [int], [float], [str], [list], [dict]. *)

Inductive pyval : Type :=
  | PNone
  | PBool (b : bool)
  | PInt (n : Z)
  | PFloat (f : spec_float)
  | PStr (s : string)
  | PList (xs : list pyval)
  | PDict (d : gmap string pyval).

(** A resource record: attribute name to value. *)
Abbreviation item := (gmap string pyval).

(** The exceptions that can reach the handler.  [ClientError] is botocore's;
    [OtherError] stands for any other subclass of [Exception], by class name
    (a connection error of the client, [RecursionError], ...). *)
Inductive exn : Type :=
  | AttributeError (msg : string)
  | TypeError (msg : string)
  | KeyError (key : string)
  | JSONDecodeError (msg : string)
  | ClientError (operation code message : string)
  | OtherError (cls msg : string).

(** [str(e)]. *)
Definition exn_str (e : exn) : string :=
  match e with
  | AttributeError msg | TypeError msg | JSONDecodeError msg => msg
  | KeyError key => "'" +:+ key +:+ "'"
  | ClientError operation code message =>
      "An error occurred (" +:+ code +:+ ") when calling the " +:+ operation
        +:+ " operation: " +:+ message
  | OtherError _ msg => msg
  end.

(** A pure operation that may raise. *)
Inductive raises (A : Type) : Type :=
  | Value (a : A)
  | Raises (e : exn).
Arguments Value {A} a.
Arguments Raises {A} e.

(** [bool(v)], as [if not v] tests it. *)
Definition truthy (v : pyval) : bool :=
  match v with
  | PNone => false
  | PBool b => b
  | PInt n => negb (Z.eqb n 0)
  | PFloat (S754_zero _) => false
  | PFloat _ => true
  | PStr s => negb (String.eqb s "")
  | PList xs => match xs with [] => false | _ :: _ => true end
  | PDict d => negb (bool_decide (d = ∅))
  end.

(** [x in s] on strings: [x] occurs in [s]. *)
Fixpoint occurs_in (x s : string) : bool :=
  String.prefix x s
  || match s with
     | EmptyString => false
     | String _ s' => occurs_in x s'
     end.

(** [type(v).__name__], for the messages of [TypeError]. *)
Definition type_name (v : pyval) : string :=
  match v with
  | PNone => "NoneType"
  | PBool _ => "bool"
  | PInt _ => "int"
  | PFloat _ => "float"
  | PStr _ => "str"
  | PList _ => "list"
  | PDict _ => "dict"
  end.

(** [key in container] for a string [key]: key membership on a dict, element
    membership on a list, substring on a string, [TypeError] otherwise. *)
Definition py_in (key : string) (container : pyval) : raises bool :=
  match container with
  | PDict d => Value (bool_decide (is_Some (d !! key)))
  | PList xs =>
      Value (existsb (λ v, match v with
                           | PStr s => String.eqb key s
                           | _ => false
                           end) xs)
  | PStr s => Value (occurs_in key s)
  | _ =>
      Raises (TypeError ("argument of type '" +:+ type_name container
                           +:+ "' is not iterable"))
  end.

(** [container[key]] for a string [key]. *)
Definition py_getitem (container : pyval) (key : string) : raises pyval :=
  match container with
  | PDict d =>
      match d !! key with
      | Some v => Value v
      | None => Raises (KeyError key)
      end
  | PList _ =>
      Raises (TypeError "list indices must be integers or slices, not str")
  | PStr _ => Raises (TypeError "string indices must be integers, not 'str'")
  | _ =>
      Raises (TypeError ("'" +:+ type_name container
                           +:+ "' object is not subscriptable"))
  end.

(** ** The event and the response *)

(** One key of the event dictionary: missing, or present with a value, which
    may be [None] (API Gateway sends [null] for a request without body or
    without path parameters). *)
Inductive field (A : Type) : Type :=
  | Absent
  | Present (v : option A).
Arguments Absent {A}.
Arguments Present {A} v.

(** [d.get(key, default)] on that key. *)
Definition get_default {A} (f : field A) (default : option A) : option A :=
  match f with
  | Absent => default
  | Present v => v
  end.

Module Event.
(** The two keys of the API Gateway event that the handler reads. *)
Record t : Type := make {
  pathParameters : field (gmap string string);
  body : field string
}.
End Event.

(** The text [json.dumps(v)], represented by the value it encodes. *)
Inductive json_text : Type :=
  | json_dumps (v : pyval).

(** The value holds a number, at any depth. *)
Fixpoint holds_number (v : pyval) : bool :=
  match v with
  | PInt _ | PFloat _ => true
  | PList xs => existsb holds_number xs
  | PDict d => map_fold (λ _ x found, holds_number x || found) false d
  | _ => false
  end.
Arguments holds_number : simpl never.

(** What [json.dumps] raises on a number of a record. *)
Definition not_serializable : exn :=
  TypeError "Object of type Decimal is not JSON serializable".

(** [json.dumps(v)] for a [v] that the table returned.  boto3 hands every
    number of a record back as a [Decimal], which [json.dumps] refuses; a
    record without numbers is encoded. *)
Definition py_json_dumps (v : pyval) : raises json_text :=
  if holds_number v then Raises not_serializable else Value (json_dumps v).

Module Response.
Record t : Type := make {
  statusCode : Z;
  headers : gmap string string;
  body : json_text
}.
End Response.

(** ** The world: table, clock, standard output *)

(** A call made on the table. *)
Inductive call : Type :=
  | GetItem (key : string)
  | UpdateItem (key : string) (update_expression : string)
               (expression_attribute_values : item) (return_values : string).

Definition is_read (c : call) : bool :=
  match c with GetItem _ => true | UpdateItem _ _ _ _ => false end.

Definition is_write (c : call) : bool :=
  match c with GetItem _ => false | UpdateItem _ _ _ _ => true end.

(** The state around one invocation.  [get_item_fault] and
    [update_item_fault] say how the store behaves: [None] for a call that is
    served, [Some e] for one that raises [e], be it an error of the service
    or of the client (no connection; a float among the values, which boto3
    refuses to send). *)
Record world : Type := World {
  table : gmap string item;
  utcnow_isoformat : string;
  get_item_fault : option exn;
  update_item_fault : option exn;
  calls : list call;
  stdout : list string
}.

(** The reads and the writes made so far. *)
Definition reads (w : world) : list call := List.filter is_read (calls w).
Definition writes (w : world) : list call := List.filter is_write (calls w).

Definition log_call (c : call) (w : world) : world :=
  World (table w) (utcnow_isoformat w) (get_item_fault w)
        (update_item_fault w) (calls w ++ [c]) (stdout w).

Definition set_table (t : gmap string item) (w : world) : world :=
  World t (utcnow_isoformat w) (get_item_fault w) (update_item_fault w)
        (calls w) (stdout w).

Definition write_stdout (line : string) (w : world) : world :=
  World (table w) (utcnow_isoformat w) (get_item_fault w)
        (update_item_fault w) (calls w) (stdout w ++ [line]).

(** The world a later invocation starts in: the table as it was left, with a
    new clock reading and store behaviour. *)
Definition later (now : string) (get_fault update_fault : option exn)
    (w : world) : world :=
  World (table w) now get_fault update_fault (calls w) (stdout w).

(** ** Statements

    A statement either falls through with a value, returns from the function,
    or raises. *)
Inductive completion (A : Type) : Type :=
  | Normal (a : A)
  | Return (r : Response.t)
  | Raise (e : exn).
Arguments Normal {A} a.
Arguments Return {A} r.
Arguments Raise {A} e.

Definition M (A : Type) : Type := world → completion A * world.

#[export] Instance M_ret : MRet M := λ A a w, (Normal a, w).

#[export] Instance M_bind : MBind M := λ A B k m w,
  match m w with
  | (Normal a, w') => k a w'
  | (Return r, w') => (Return r, w')
  | (Raise e, w') => (Raise e, w')
  end.

(** [return r]. *)
Definition return_ {A} (r : Response.t) : M A := λ w, (Return r, w).

(** A pure operation used as a statement. *)
Definition lift {A} (x : raises A) : M A := λ w,
  match x with
  | Value a => (Normal a, w)
  | Raises e => (Raise e, w)
  end.

(** [try: m except ...], where [clauses e] is the body of the first [except]
    clause that matches [e], if one does. *)
Definition try_except {A} (m : M A) (clauses : exn → option (M A)) : M A :=
  λ w,
  match m w with
  | (Raise e, w') =>
      match clauses e with
      | Some k => k w'
      | None => (Raise e, w')
      end
  | other => other
  end.

(** [print(line)]. *)
Definition print (line : string) : M unit := λ w,
  (Normal tt, write_stdout line w).

(** [datetime.utcnow().isoformat()]. *)
Definition utcnow : M string := λ w, (Normal (utcnow_isoformat w), w).

(** What the caller of a function sees. *)
Inductive result : Type :=
  | Returned (r : Response.t)
  | Escaped (e : exn).

(** Calling a function whose body never falls off its end. *)
Definition call_function (body : M Empty_set) (w : world) : result * world :=
  match body w with
  | (Normal a, _) => match a with end
  | (Return r, w') => (Returned r, w')
  | (Raise e, w') => (Escaped e, w')
  end.

(** ** The key-value store *)

(** The pieces of [s] between occurrences of the separator [sep].  [skip]
    counts the characters of a separator still to be passed over. *)
Fixpoint split_go (sep : string) (skip : nat) (s : string) : list string :=
  match s with
  | EmptyString => [""]
  | String c s' =>
      match skip with
      | S k => split_go sep k s'
      | O =>
          if String.prefix sep s
          then "" :: split_go sep (String.length sep - 1) s'
          else match split_go sep 0 s' with
               | piece :: pieces => String c piece :: pieces
               | [] => [String c ""]
               end
      end
  end.

Definition split (sep s : string) : list string := split_go sep 0 s.

(** One clause [name = :placeholder] of a SET action. *)
Definition parse_clause (clause : string) : option (string * string) :=
  match split " = " clause with
  | [name; placeholder] =>
      if String.eqb name "" || negb (String.prefix ":" placeholder)
      then None
      else Some (name, placeholder)
  | _ => None
  end.

(** An update expression of the form [SET a = :x, b = :y, ...]: the
    attributes it names, each with its placeholder. *)
Definition parse_update_expression (e : string) : option (list (string * string)) :=
  if String.prefix "SET " e
  then mapM parse_clause (split ", " (String.substring 4 (String.length e - 4) e))
  else None.

(** The value each named attribute is set to. *)
Definition resolve (values : item) (clause : string * string) : option (string * pyval) :=
  v ← values !! clause.2; Some (clause.1, v).

(** Setting the named attributes on a record, leaving the others. *)
Definition merge (assignments : list (string * pyval)) (record : item) : item :=
  foldl (λ r a, <[a.1 := a.2]> r) record assignments.

Definition validation_exception (operation : string) : exn :=
  ClientError operation "ValidationException" "Invalid UpdateExpression".

Module GetItemOutput.
Record t : Type := make { Item : option item }.
End GetItemOutput.

Module UpdateItemOutput.
Record t : Type := make { Attributes : option item }.
End UpdateItemOutput.

(** Modelled from the spec: [table.get_item(Key={'id': key})], the store's
    point read by primary key, which tells "found" from "not found".  A store
    that fails raises the error it is set to fail with. *)
Definition get_item (key : string) : M GetItemOutput.t := λ w,
  let w' := log_call (GetItem key) w in
  match get_item_fault w with
  | Some e => (Raise e, w')
  | None => (Normal (GetItemOutput.make (table w !! key)), w')
  end.

(** Modelled from the spec: [table.update_item(Key={'id': key}, ...)], the
    store's merge-style write.  It sets the attributes the update expression
    names to the values given for their placeholders, leaves every other
    attribute of the record as it is, and returns the full resulting record
    when asked for [ALL_NEW].  As in DynamoDB, a key without a record gets one
    holding the key and the attributes set. *)
Definition update_item (key update_expression : string)
    (expression_attribute_values : item) (return_values : string)
    : M UpdateItemOutput.t := λ w,
  let w' := log_call (UpdateItem key update_expression
                        expression_attribute_values return_values) w in
  match update_item_fault w with
  | Some e => (Raise e, w')
  | None =>
      match parse_update_expression update_expression
              ≫= mapM (resolve expression_attribute_values) with
      | None => (Raise (validation_exception "UpdateItem"), w')
      | Some assignments =>
          let old := default {[ "id" := PStr key ]} (table w !! key) in
          let new := merge assignments old in
          (Normal (UpdateItemOutput.make
                     (if decide (return_values = "ALL_NEW")
                      then Some new else None)),
           set_table (<[key := new]> (table w)) w')
      end
  end.

(** ** The handler *)

(** [json.loads]: its result on every text.  The one law is what it does on
    the text the handler supplies for a missing body. *)
Class JsonDecoder : Type := {
  json_loads : string → raises pyval;
  json_loads_empty_object : json_loads "{}" = Value (PDict ∅)
}.

(** [json.loads(s)] for an [s] that may be [None]. *)
Definition py_json_loads `{JsonDecoder} (s : option string) : raises pyval :=
  match s with
  | Some text => json_loads text
  | None =>
      Raises (TypeError
        "the JSON object must be str, bytes or bytearray, not NoneType")
  end.

(** [o.get(key)] for an [o] that may be [None]. *)
Definition py_get (o : option (gmap string string)) (key : string)
    : raises (option string) :=
  match o with
  | Some d => Value (d !! key)
  | None => Raises (AttributeError "'NoneType' object has no attribute 'get'")
  end.

(** [event.get("pathParameters", {})]; [None] is Python's. *)
Definition path_parameters (event : Event.t) : option (gmap string string) :=
  get_default (Event.pathParameters event) (Some ∅).

(** [event.get("body", "{}")]. *)
Definition body_text (event : Event.t) : option string :=
  get_default (Event.body event) (Some "{}").

Definition json_headers : gmap string string :=
  {[ "Content-Type" := "application/json" ]}.

Definition cors_headers : gmap string string :=
  {[ "Content-Type" := "application/json";
     "Access-Control-Allow-Origin" := "*" ]}.

(** A response whose body is [json.dumps({"error": message})]. *)
Definition error_response (status : Z) (message : string) : Response.t :=
  Response.make status json_headers
    (json_dumps (PDict {[ "error" := PStr message ]})).

(** A response whose body is
    [json.dumps({"error": message, "details": details})]. *)
Definition failure_response (message details : string) : Response.t :=
  Response.make 500 json_headers
    (json_dumps (PDict {[ "error" := PStr message;
                          "details" := PStr details ]})).

Section handler.
Context `{JsonDecoder}.

(** The [try] block: read, build the update, write, respond. *)
Definition handler_try (resource_id : string) (body : pyval) : M Empty_set :=
  (* First, check if the resource exists *)
  response ← get_item resource_id;
  match GetItemOutput.Item response with
  | None =>
      return_ (error_response 404
        ("Resource with id '" +:+ resource_id +:+ "' not found"))
  | Some _ =>
      (* Build update expression dynamically based on provided fields *)
      now ← utcnow;
      let update_expression := "SET updatedAt = :updated_at" in
      let expression_attribute_values : item :=
        {[ ":updated_at" := PStr (now +:+ "Z") ]} in
      (* Add title if provided *)
      has_title ← lift (py_in "title" body);
      '(update_expression, expression_attribute_values) ←
        (if has_title : bool
         then
           title ← lift (py_getitem body "title");
           mret (update_expression +:+ ", title = :title",
                 <[":title" := title]> expression_attribute_values)
         else mret (update_expression, expression_attribute_values));
      (* Add description if provided *)
      has_description ← lift (py_in "description" body);
      '(update_expression, expression_attribute_values) ←
        (if has_description : bool
         then
           description ← lift (py_getitem body "description");
           mret (update_expression +:+ ", description = :description",
                 <[":description" := description]>
                   expression_attribute_values)
         else mret (update_expression, expression_attribute_values));
      (* Update the item in DynamoDB *)
      update_response ←
        update_item resource_id update_expression
          expression_attribute_values "ALL_NEW";
      (* Return the updated resource *)
      match UpdateItemOutput.Attributes update_response with
      | None => lift (Raises (KeyError "Attributes"))
      | Some updated_resource =>
          body ← lift (py_json_dumps (PDict updated_resource));
          return_ (Response.make 200 cors_headers body)
      end
  end.

(** The two [except] clauses of that block. *)
Definition handler_except (e : exn) : option (M Empty_set) :=
  match e with
  | ClientError _ error_code error_message =>
      (* Handle DynamoDB errors *)
      Some (print ("DynamoDB error: " +:+ error_code +:+ " - "
                     +:+ error_message);;
            return_ (failure_response "Failed to update resource"
                       error_message))
  | _ =>
      (* Handle unexpected errors *)
      Some (print ("Unexpected error: " +:+ exn_str e);;
            return_ (failure_response "Internal server error" (exn_str e)))
  end.

Definition handler_body (event : Event.t) : M Empty_set :=
  (* Extract resource ID from path parameters *)
  resource_id ←
    lift (py_get (path_parameters event) "resourceId");
  match resource_id with
  | None | Some "" =>
      return_ (error_response 400 "Missing resourceId in path")
  | Some resource_id =>
      (* Parse request body *)
      body ←
        try_except
          (lift (py_json_loads (body_text event)))
          (λ e, match e with
                | JSONDecodeError _ =>
                    Some (return_
                            (error_response 400 "Invalid JSON in request body"))
                | _ => None
                end);
      (* Validate that we have at least one field to update *)
      if negb (truthy body)
      then return_ (error_response 400 "Request body cannot be empty")
      else try_except (handler_try resource_id body) handler_except
  end.

(** [handler(event, context)]; the context is not used. *)
Definition handler (event : Event.t) (w : world) : result * world :=
  call_function (handler_body event) w.
End handler.

(** ** The paths through the handler

    What a request is, in the words of the specification, and the ways an
    invocation can go.  The properties below are stated with these and proved
    of [handler]. *)

Section paths.
Context `{JsonDecoder}.

(** The path parameters are there, and [resourceId] is missing from them or
    empty. *)
Definition no_resource_id (event : Event.t) : Prop :=
  ∃ pp, path_parameters event = Some pp
        ∧ (pp !! "resourceId" = None ∨ pp !! "resourceId" = Some "").

(** The request names the resource [resource_id]. *)
Definition has_resource_id (event : Event.t) (resource_id : string) : Prop :=
  ∃ pp, path_parameters event = Some pp
        ∧ pp !! "resourceId" = Some resource_id ∧ resource_id ≠ "".

(** The body of the request (the empty object, when it has no [body] key)
    parses as [body]. *)
Definition parsed_body (event : Event.t) (body : pyval) : Prop :=
  ∃ text, body_text event = Some text ∧ json_loads text = Value body.

(** The request passes validation. *)
Definition valid_request (event : Event.t) (resource_id : string)
    (body : pyval) : Prop :=
  has_resource_id event resource_id ∧ parsed_body event body
  ∧ truthy body = true.

(** The request fails validation, with the message of the first check that
    fails. *)
Inductive rejected (event : Event.t) : string → Prop :=
  | missing_resource_id :
      no_resource_id event →
      rejected event "Missing resourceId in path"
  | invalid_json resource_id text msg :
      has_resource_id event resource_id →
      body_text event = Some text →
      json_loads text = Raises (JSONDecodeError msg) →
      rejected event "Invalid JSON in request body"
  | empty_body resource_id body :
      has_resource_id event resource_id →
      parsed_body event body →
      truthy body = false →
      rejected event "Request body cannot be empty".

(** The request makes a statement outside the [try] block raise. *)
Inductive breaks (event : Event.t) : exn → Prop :=
  | null_path_parameters :
      path_parameters event = None →
      breaks event (AttributeError "'NoneType' object has no attribute 'get'")
  | null_body resource_id :
      has_resource_id event resource_id →
      body_text event = None →
      breaks event
        (TypeError
           "the JSON object must be str, bytes or bytearray, not NoneType")
  | decoder_error resource_id text e :
      has_resource_id event resource_id →
      body_text event = Some text →
      json_loads text = Raises e →
      (∀ msg, e ≠ JSONDecodeError msg) →
      breaks event e.

(** The attribute [name] with its new value, when the body has it. *)
Definition requested (name : string) (body : pyval)
    : raises (list (string * pyval)) :=
  match py_in name body with
  | Value true =>
      match py_getitem body name with
      | Value v => Value [(name, v)]
      | Raises e => Raises e
      end
  | Value false => Value []
  | Raises e => Raises e
  end.

(** The attributes one invocation asks the store to set, in the order of its
    update expression. *)
Definition assignments (now : string) (body : pyval)
    : raises (list (string * pyval)) :=
  match requested "title" body with
  | Value title =>
      match requested "description" body with
      | Value description =>
          Value (("updatedAt", PStr (now +:+ "Z")) :: title ++ description)
      | Raises e => Raises e
      end
  | Raises e => Raises e
  end.

(** The response and the printed line of the [except] clause that catches
    [e]. *)
Definition failure_of (e : exn) : Response.t :=
  match e with
  | ClientError _ _ message =>
      failure_response "Failed to update resource" message
  | _ => failure_response "Internal server error" (exn_str e)
  end.

Definition log_line (e : exn) : string :=
  match e with
  | ClientError _ code message =>
      "DynamoDB error: " +:+ code +:+ " - " +:+ message
  | _ => "Unexpected error: " +:+ exn_str e
  end.

Definition not_found_message (resource_id : string) : string :=
  "Resource with id '" +:+ resource_id +:+ "' not found".

(** The ways an invocation on [event] in the world [w] can go: the result
    the caller sees and the world it leaves. *)
Inductive outcome (event : Event.t) (w : world) : result → world → Prop :=
  | outcome_breaks e :
      breaks event e →
      outcome event w (Escaped e) w
  | outcome_rejected message :
      rejected event message →
      outcome event w (Returned (error_response 400 message)) w
  | outcome_read_failed resource_id body e :
      valid_request event resource_id body →
      get_item_fault w = Some e →
      outcome event w (Returned (failure_of e))
        (write_stdout (log_line e) (log_call (GetItem resource_id) w))
  | outcome_not_found resource_id body :
      valid_request event resource_id body →
      get_item_fault w = None →
      table w !! resource_id = None →
      outcome event w
        (Returned (error_response 404 (not_found_message resource_id)))
        (log_call (GetItem resource_id) w)
  | outcome_bad_body resource_id body old e :
      valid_request event resource_id body →
      get_item_fault w = None →
      table w !! resource_id = Some old →
      assignments (utcnow_isoformat w) body = Raises e →
      outcome event w (Returned (failure_of e))
        (write_stdout (log_line e) (log_call (GetItem resource_id) w))
  | outcome_write_failed resource_id body old fields expression values e :
      valid_request event resource_id body →
      get_item_fault w = None →
      table w !! resource_id = Some old →
      assignments (utcnow_isoformat w) body = Value fields →
      update_item_fault w = Some e →
      outcome event w (Returned (failure_of e))
        (write_stdout (log_line e)
           (log_call (UpdateItem resource_id expression values "ALL_NEW")
              (log_call (GetItem resource_id) w)))
  | outcome_updated resource_id body old fields expression values :
      valid_request event resource_id body →
      get_item_fault w = None →
      table w !! resource_id = Some old →
      assignments (utcnow_isoformat w) body = Value fields →
      update_item_fault w = None →
      holds_number (PDict (merge fields old)) = false →
      outcome event w
        (Returned (Response.make 200 cors_headers
                     (json_dumps (PDict (merge fields old)))))
        (set_table (<[resource_id := merge fields old]> (table w))
           (log_call (UpdateItem resource_id expression values "ALL_NEW")
              (log_call (GetItem resource_id) w)))
  | outcome_not_serializable resource_id body old fields expression values :
      valid_request event resource_id body →
      get_item_fault w = None →
      table w !! resource_id = Some old →
      assignments (utcnow_isoformat w) body = Value fields →
      update_item_fault w = None →
      holds_number (PDict (merge fields old)) = true →
      outcome event w (Returned (failure_of not_serializable))
        (write_stdout (log_line not_serializable)
           (set_table (<[resource_id := merge fields old]> (table w))
              (log_call (UpdateItem resource_id expression values "ALL_NEW")
                 (log_call (GetItem resource_id) w)))).
End paths.

(** ** A decoder and worlds for the examples *)

(** The double quote character, and a quoted JSON string. *)
Definition dq : string := String (ascii_of_nat 34) "".
Definition quoted (s : string) : string := dq +:+ s +:+ dq.

(** The text [{"key": "value"}]. *)
Definition object_text (key value : string) : string :=
  "{" +:+ quoted key +:+ ": " +:+ quoted value +:+ "}".

(** [json.loads] on the texts of the examples. *)
Definition sample_texts : list (string * pyval) :=
  [ ("{}", PDict ∅);
    (object_text "title" "B", PDict {[ "title" := PStr "B" ]});
    (object_text "title" "X", PDict {[ "title" := PStr "X" ]});
    (object_text "foo" "bar", PDict {[ "foo" := PStr "bar" ]});
    ("[1]", PList [PInt 1]);
    ("7", PInt 7) ].

(** Every other text is rejected; the examples use this for [{title] only. *)
Definition sample_loads (text : string) : raises pyval :=
  match list_to_map (M := gmap string pyval) sample_texts !! text with
  | Some v => Value v
  | None =>
      Raises (JSONDecodeError
                "Expecting property name enclosed in double quotes")
  end.

Definition sample_decoder : JsonDecoder :=
  {| json_loads := sample_loads; json_loads_empty_object := eq_refl |}.

(** A request for [resource_id] with the body [text]. *)
Definition request (resource_id text : string) : Event.t :=
  Event.make (Present (Some {[ "resourceId" := resource_id ]}))
             (Present (Some text)).

(** A world whose store serves every call. *)
Definition healthy (t : gmap string item) (now : string) : world :=
  World t now None None [] [].

(** The record of the first scenario of the specification. *)
Definition r1 : item :=
  {[ "id" := PStr "r1"; "title" := PStr "A"; "description" := PStr "d" ]}.


(** A record that holds a number. *)
Definition r3 : item :=
  {[ "id" := PStr "r3"; "title" := PStr "A"; "count" := PInt 3 ]}.

(** Two clock readings. *)
Definition reading : string := "2024-03-01T12:00:00.000250".
Definition reading' : string := "2024-03-01T12:00:07.031416".

(** A store that throttles writes. *)
Definition throttled : exn :=
  ClientError "UpdateItem" "ProvisionedThroughputExceededException"
    "Rate exceeded".

(** [json.loads] on further texts: scalars, strings, lists, and an object
    with a description. *)
Definition more_texts : list (string * pyval) :=
  sample_texts ++
  [ ("null", PNone);
    ("false", PBool false);
    ("true", PBool true);
    ("0", PInt 0);
    ("[]", PList []);
    (quoted "abc", PStr "abc");
    (quoted "subtitles", PStr "subtitles");
    ("[" +:+ quoted "title" +:+ "]", PList [PStr "title"]);
    (object_text "description" "e", PDict {[ "description" := PStr "e" ]}) ].

Definition more_loads (text : string) : raises pyval :=
  match list_to_map (M := gmap string pyval) more_texts !! text with
  | Some v => Value v
  | None =>
      Raises (JSONDecodeError
                "Expecting property name enclosed in double quotes")
  end.

Definition more_decoder : JsonDecoder :=
  {| json_loads := more_loads; json_loads_empty_object := eq_refl |}.




(** A store whose connection is down: the client raises before any answer. *)
Definition unreachable : exn :=
  OtherError "EndpointConnectionError"
    "Could not connect to the endpoint URL".

(** * Properties *)

(** ** Every invocation takes one of the paths *)

(** Runs the statements of the [try] block up to the next store call. *)
Ltac step :=
  unfold try_except, handler_try, mbind, M_bind, mret, M_ret, get_item, utcnow,
    lift, return_; simpl.

Section outcomes.
Context `{JsonDecoder}.

Lemma handler_except_catches e w :
  match handler_except e with
  | Some k => k w
  | None => (Raise e, w)
  end = (Return (failure_of e), write_stdout (log_line e) w).
Proof. by destruct e. Qed.

Lemma update_item_served key expression values fields w :
  update_item_fault w = None →
  parse_update_expression expression ≫= mapM (resolve values) = Some fields →
  update_item key expression values "ALL_NEW" w =
    (let new := merge fields (default {[ "id" := PStr key ]} (table w !! key)) in
     (Normal (UpdateItemOutput.make (Some new)),
      set_table (<[key := new]> (table w))
        (log_call (UpdateItem key expression values "ALL_NEW") w))).
Proof.
  intros Hfault Hparse. unfold update_item. rewrite Hfault, Hparse. reflexivity.
Qed.

Lemma update_item_failed key expression values ret e w :
  update_item_fault w = Some e →
  update_item key expression values ret w =
    (Raise e, log_call (UpdateItem key expression values ret) w).
Proof. intros Hfault. unfold update_item. by rewrite Hfault. Qed.

Lemma try_block_bad_body rid body old e w :
  get_item_fault w = None → table w !! rid = Some old →
  assignments (utcnow_isoformat w) body = Raises e →
  try_except (handler_try rid body) handler_except w =
    (Return (failure_of e), write_stdout (log_line e) (log_call (GetItem rid) w)).
Proof.
  intros Hg Hf Ha. step. rewrite Hg. simpl. rewrite Hf.
  unfold assignments, requested in Ha.
  destruct (py_in "title" body) as [[]|] eqn:Ht; simpl.
  - destruct (py_getitem body "title") eqn:Hgt; simpl.
    + destruct (py_in "description" body) as [[]|] eqn:Hd; simpl.
      * destruct (py_getitem body "description") eqn:Hgd; [done|].
        injection Ha as <-. apply handler_except_catches.
      * done.
      * injection Ha as <-. apply handler_except_catches.
    + injection Ha as <-. apply handler_except_catches.
  - destruct (py_in "description" body) as [[]|] eqn:Hd; simpl.
    + destruct (py_getitem body "description") eqn:Hgd; [done|].
      injection Ha as <-. apply handler_except_catches.
    + done.
    + injection Ha as <-. apply handler_except_catches.
  - injection Ha as <-. apply handler_except_catches.
Qed.

Lemma try_block_built rid body old fields w :
  get_item_fault w = None → table w !! rid = Some old →
  assignments (utcnow_isoformat w) body = Value fields →
  ∃ expression values,
    try_except (handler_try rid body) handler_except w =
      let w' := log_call (UpdateItem rid expression values "ALL_NEW")
                  (log_call (GetItem rid) w) in
      match update_item_fault w with
      | Some e => (Return (failure_of e), write_stdout (log_line e) w')
      | None =>
          let w'' := set_table (<[rid := merge fields old]> (table w)) w' in
          if holds_number (PDict (merge fields old))
          then (Return (failure_of not_serializable),
                write_stdout (log_line not_serializable) w'')
          else (Return (Response.make 200 cors_headers
                          (json_dumps (PDict (merge fields old)))), w'')
      end.
Proof.
  intros Hg Hf Ha. unfold assignments, requested in Ha.
  assert (Hserved : ∀ expression values,
    parse_update_expression expression ≫= mapM (resolve values) = Some fields →
    try_except
      (update_response ← update_item rid expression values "ALL_NEW";
       match UpdateItemOutput.Attributes update_response with
       | None => lift (Raises (KeyError "Attributes"))
       | Some updated_resource =>
           body ← lift (py_json_dumps (PDict updated_resource));
           return_ (Response.make 200 cors_headers body)
       end) handler_except (log_call (GetItem rid) w) =
      let w' := log_call (UpdateItem rid expression values "ALL_NEW")
                  (log_call (GetItem rid) w) in
      match update_item_fault w with
      | Some e => (Return (failure_of e), write_stdout (log_line e) w')
      | None =>
          let w'' := set_table (<[rid := merge fields old]> (table w)) w' in
          if holds_number (PDict (merge fields old))
          then (Return (failure_of not_serializable),
                write_stdout (log_line not_serializable) w'')
          else (Return (Response.make 200 cors_headers
                          (json_dumps (PDict (merge fields old)))), w'')
      end).
  { intros expression values Hparse. unfold try_except, mbind, M_bind.
    destruct (update_item_fault w) as [e|] eqn:Hu.
    - rewrite (update_item_failed _ _ _ _ e) by done.
      apply handler_except_catches.
    - rewrite (update_item_served _ _ _ fields) by done.
      simpl. rewrite Hf. simpl. unfold lift, py_json_dumps.
      destruct (holds_number (PDict (merge fields old))); [|done].
      apply handler_except_catches. }
  set (stamp := PStr (utcnow_isoformat w +:+ "Z")) in *.
  destruct (py_in "title" body) as [[]|] eqn:Ht; [| |done].
  - destruct (py_getitem body "title") as [title|] eqn:Hgt; [|done].
    destruct (py_in "description" body) as [[]|] eqn:Hd; [| |done].
    + destruct (py_getitem body "description") as [description|] eqn:Hgd; [|done].
      injection Ha as <-.
      exists "SET updatedAt = :updated_at, title = :title, description = :description",
        (<[":description" := description]> (<[":title" := title]> {[ ":updated_at" := stamp ]})).
      rewrite <- Hserved; [|reflexivity].
      step. rewrite Hg, Hf, Ht, Hgt, Hd, Hgd. reflexivity.
    + injection Ha as <-.
      exists "SET updatedAt = :updated_at, title = :title",
        (<[":title" := title]> {[ ":updated_at" := stamp ]}).
      rewrite <- Hserved; [|reflexivity].
      step. rewrite Hg, Hf, Ht, Hgt, Hd. reflexivity.
  - destruct (py_in "description" body) as [[]|] eqn:Hd; [| |done].
    + destruct (py_getitem body "description") as [description|] eqn:Hgd; [|done].
      injection Ha as <-.
      exists "SET updatedAt = :updated_at, description = :description",
        (<[":description" := description]> {[ ":updated_at" := stamp ]}).
      rewrite <- Hserved; [|reflexivity].
      step. rewrite Hg, Hf, Ht, Hd, Hgd. reflexivity.
    + injection Ha as <-.
      exists "SET updatedAt = :updated_at", ({[ ":updated_at" := stamp ]} : item).
      rewrite <- Hserved; [|reflexivity].
      step. rewrite Hg, Hf, Ht, Hd. reflexivity.
Qed.

Lemma try_block_read_failed rid body e w :
  get_item_fault w = Some e →
  try_except (handler_try rid body) handler_except w =
    (Return (failure_of e), write_stdout (log_line e) (log_call (GetItem rid) w)).
Proof. intros Hg. step. rewrite Hg. apply handler_except_catches. Qed.

Lemma try_block_not_found rid body w :
  get_item_fault w = None → table w !! rid = None →
  try_except (handler_try rid body) handler_except w =
    (Return (error_response 404 (not_found_message rid)),
     log_call (GetItem rid) w).
Proof. intros Hg Hf. step. rewrite Hg. simpl. by rewrite Hf. Qed.

Lemma try_block_outcome event rid body w :
  valid_request event rid body →
  ∃ r w', try_except (handler_try rid body) handler_except w = (Return r, w')
          ∧ outcome event w (Returned r) w'.
Proof.
  intros Hvalid.
  destruct (get_item_fault w) as [e|] eqn:Hg.
  { eexists _, _. split; [by apply try_block_read_failed|].
    by eapply outcome_read_failed. }
  destruct (table w !! rid) as [old|] eqn:Hf.
  2: { eexists _, _. split; [by apply try_block_not_found|].
       by eapply outcome_not_found. }
  destruct (assignments (utcnow_isoformat w) body) as [fields|e] eqn:Ha.
  2: { eexists _, _. split; [by eapply try_block_bad_body|].
       by eapply outcome_bad_body. }
  destruct (try_block_built rid body old fields w) as (expression & values & ->);
    [done..|].
  destruct (update_item_fault w) as [e|] eqn:Hu.
  { eexists _, _. split; [done|]. by eapply outcome_write_failed. }
  simpl.
  destruct (holds_number (PDict (merge fields old))) eqn:Hn;
    eexists _, _; (split; [done|]).
  - by eapply outcome_not_serializable.
  - by eapply outcome_updated.
Qed.

Theorem handler_outcome event w :
  outcome event w (handler event w).1 (handler event w).2.
Proof.
  unfold handler, call_function, handler_body, mbind, M_bind, lift, py_get.
  destruct (path_parameters event) as [pp|] eqn:Hpp.
  2: { apply outcome_breaks, null_path_parameters, Hpp. }
  destruct (pp !! "resourceId") as [rid|] eqn:Hrid.
  2: { apply outcome_rejected, missing_resource_id. exists pp. auto. }
  destruct (decide (rid = "")) as [->|Hne].
  { apply outcome_rejected, missing_resource_id. exists pp. auto. }
  assert (Hid : has_resource_id event rid) by (by exists pp).
  destruct rid as [|c rid']; [done|]. set (rid := String c rid') in *.
  unfold try_except at 1. unfold py_json_loads, return_.
  destruct (body_text event) as [text|] eqn:Hbody.
  2: { simpl. by eapply outcome_breaks, null_body. }
  destruct (json_loads text) as [body|e] eqn:Hloads.
  2: { destruct e; simpl;
         try (eapply outcome_breaks, decoder_error; by eauto).
       eapply outcome_rejected, invalid_json; eauto. }
  assert (Hparsed : parsed_body event body) by (by exists text).
  simpl. destruct (truthy body) eqn:Htruthy; simpl.
  2: { by eapply outcome_rejected, empty_body. }
  destruct (try_block_outcome event rid body w) as (r & w' & Hrun & Hout);
    [done|].
  by rewrite Hrun.
Qed.

Lemma handler_inv event w res w' :
  handler event w = (res, w') → outcome event w res w'.
Proof. intros Heq. pose proof (handler_outcome event w) as Hout. by rewrite Heq in Hout. Qed.

Lemma has_resource_id_unique event rid1 rid2 :
  has_resource_id event rid1 → has_resource_id event rid2 → rid1 = rid2.
Proof. intros (pp1 & ? & ? & _) (pp2 & ? & ? & _). congruence. Qed.

Lemma parsed_body_unique event body1 body2 :
  parsed_body event body1 → parsed_body event body2 → body1 = body2.
Proof. intros (t1 & ? & ?) (t2 & ? & ?). congruence. Qed.

Lemma valid_request_unique event rid1 body1 rid2 body2 :
  valid_request event rid1 body1 → valid_request event rid2 body2 →
  rid1 = rid2 ∧ body1 = body2.
Proof.
  intros (? & ? & _) (? & ? & _).
  eauto using has_resource_id_unique, parsed_body_unique.
Qed.

Lemma valid_not_rejected event rid body message :
  valid_request event rid body → rejected event message → False.
Proof.
  intros (Hid & Hbody & Htruthy) Hrej. destruct Hid as (pp & Hpp & Hrid & Hne).
  destruct Hbody as (text & Htext & Hloads).
  destruct Hrej as [(pp' & ? & [?|?])|? ? ? _ ? ?|? body' _ Hbody' ?].
  - congruence.
  - congruence.
  - congruence.
  - assert (body = body') as <- by (eapply parsed_body_unique; [by exists text|done]).
    congruence.
Qed.

Lemma valid_not_breaks event rid body e :
  valid_request event rid body → breaks event e → False.
Proof.
  intros (Hid & Hbody & _) Hbr. destruct Hid as (pp & Hpp & _).
  destruct Hbody as (text & Htext & Hloads).
  destruct Hbr; congruence.
Qed.

Lemma handler_valid event rid body w :
  valid_request event rid body →
  handler event w =
    call_function (try_except (handler_try rid body) handler_except) w.
Proof.
  intros ((pp & Hpp & Hrid & Hne) & (text & Htext & Hloads) & Htruthy).
  unfold handler at 1, handler_body, mbind, M_bind, lift, py_get, call_function.
  rewrite Hpp, Hrid. destruct rid as [|c rid]; [done|].
  unfold try_except at 1. unfold py_json_loads. rewrite Htext, Hloads.
  simpl. by rewrite Htruthy.
Qed.
End outcomes.

(** Runs the statements before the [try] block. *)
Ltac enter :=
  unfold handler, handler_body, mbind, M_bind, lift, py_get, call_function.

Lemma rejected_400 `{JsonDecoder} event message w :
  rejected event message →
  handler event w = (Returned (error_response 400 message), w).
Proof.
  intros [(pp & Hpp & Hrid)
         |rid text msg (pp & Hpp & Hrid & Hne) Htext Hloads
         |rid body (pp & Hpp & Hrid & Hne) (text & Htext & Hloads) Htruthy];
    enter; rewrite Hpp.
  - by destruct Hrid as [->| ->].
  - rewrite Hrid. destruct rid; [done|].
    unfold try_except, py_json_loads. by rewrite Htext, Hloads.
  - rewrite Hrid. destruct rid; [done|].
    unfold try_except at 1. unfold py_json_loads. rewrite Htext, Hloads.
    simpl. by rewrite Htruthy.
Qed.

Lemma breaks_escapes `{JsonDecoder} event e w :
  breaks event e → handler event w = (Escaped e, w).
Proof.
  intros [Hpp
         |rid (pp & Hpp & Hrid & Hne) Htext
         |rid text e' (pp & Hpp & Hrid & Hne) Htext Hloads Hother];
    enter; rewrite Hpp; [done|..]; rewrite Hrid; (destruct rid; [done|]);
    unfold try_except, py_json_loads; rewrite Htext; [done|].
  rewrite Hloads. destruct e'; try done. by destruct (Hother msg).
Qed.

(** An exception leaves the handler only from the statements before the
    [try] block, and then nothing has been done. *)
Lemma escapes_only_outside_try `{JsonDecoder} event w e w' :
  handler event w = (Escaped e, w') → breaks event e ∧ w' = w.
Proof. intros Hrun%handler_inv. by inversion Hrun. Qed.

(** A response has one of the four status codes. *)
Lemma returned_status `{JsonDecoder} event w response w' :
  handler event w = (Returned response, w') →
  Response.statusCode response ∈ [200; 400; 404; 500].
Proof.
  intros Hrun%handler_inv.
  inversion Hrun as [| |? ? e| |? ? ? e|? ? ? ? ? ? e| |]; subst;
    try destruct e; simpl; rewrite !elem_of_cons; auto.
Qed.

Lemma request_has_resource_id `{JsonDecoder} resource_id text :
  resource_id ≠ "" → has_resource_id (request resource_id text) resource_id.
Proof.
  intros Hne. exists {[ "resourceId" := resource_id ]}.
  split; [done|]. split; [apply lookup_singleton_eq|done].
Qed.

(** ** The store calls of an invocation *)

Lemma writes_log_get key w : writes (log_call (GetItem key) w) = writes w.
Proof. unfold writes. simpl. rewrite List.filter_app. simpl. apply app_nil_r. Qed.

Lemma reads_log_get key w :
  reads (log_call (GetItem key) w) = reads w ++ [GetItem key].
Proof. unfold reads. simpl. by rewrite List.filter_app. Qed.

Lemma writes_stdout line w : writes (write_stdout line w) = writes w.
Proof. reflexivity. Qed.

(** ** Merging the named attributes into a record *)

Section merging.
Implicit Types (fields : list (string * pyval)) (r : item) (k : string).

Lemma merge_snoc fields a r :
  merge (fields ++ [a]) r = <[a.1 := a.2]> (merge fields r).
Proof. unfold merge. by rewrite foldl_app. Qed.

(** An attribute that is not named keeps its value. *)
Lemma lookup_merge_other fields r k :
  k ∉ fields.*1 → merge fields r !! k = r !! k.
Proof.
  induction fields as [|a fields IH] using rev_ind; [done|].
  rewrite fmap_app, not_elem_of_app. intros [Hk Ha].
  rewrite merge_snoc, lookup_insert_ne; [by apply IH|].
  intros <-. apply Ha, list_elem_of_singleton. done.
Qed.

(** An attribute that is named once gets the value given for it. *)
Lemma lookup_merge_set fields r k v :
  NoDup fields.*1 → (k, v) ∈ fields → merge fields r !! k = Some v.
Proof.
  induction fields as [|a fields IH] using rev_ind;
    [by intros _ ?%elem_of_nil|].
  rewrite fmap_app, NoDup_app, merge_snoc. intros (Hnd & Hfresh & _) Hin.
  apply elem_of_app in Hin as [Hin|Hin].
  - rewrite lookup_insert_ne; [by apply IH|].
    intros Heq. apply (Hfresh k); [|by apply list_elem_of_singleton].
    apply list_elem_of_fmap. by exists (k, v).
  - apply list_elem_of_singleton in Hin as <-. apply lookup_insert_eq.
Qed.

(** Merging the same attributes a second time changes nothing. *)
Lemma lookup_merge_again fields r r' k :
  r' !! k = merge fields r !! k → merge fields r' !! k = merge fields r !! k.
Proof.
  revert r r' k. induction fields as [|a fields IH] using rev_ind; [done|].
  intros r r' k. rewrite !merge_snoc.
  destruct (decide (a.1 = k)) as [->|Hne].
  - by rewrite !lookup_insert_eq.
  - rewrite !lookup_insert_ne by done. apply IH.
Qed.
End merging.

(** ** The attributes an invocation sets *)

Section building.
Implicit Types (fields : list (string * pyval)) (body : pyval).

Lemma requested_dict name (d : item) :
  requested name (PDict d) =
    Value (match d !! name with Some v => [(name, v)] | None => [] end).
Proof.
  unfold requested, py_in, py_getitem. destruct (d !! name) as [v|] eqn:Hd.
  - by rewrite bool_decide_eq_true_2.
  - rewrite bool_decide_eq_false_2; [done|]. by intros [].
Qed.

Lemma requested_shape name body fields :
  requested name body = Value fields →
  fields = [] ∨ ∃ v, fields = [(name, v)] ∧ py_in name body = Value true.
Proof.
  unfold requested. destruct (py_in name body) as [[]|]; [| |done].
  - destruct (py_getitem body name) as [v|]; [|done].
    intros [= <-]. right. by exists v.
  - intros [= <-]. by left.
Qed.

Lemma assignments_shape now body fields :
  assignments now body = Value fields →
  ∃ title description,
    requested "title" body = Value title
    ∧ requested "description" body = Value description
    ∧ fields = ("updatedAt", PStr (now +:+ "Z")) :: title ++ description.
Proof.
  unfold assignments. destruct (requested "title" body) as [title|]; [|done].
  destruct (requested "description" body) as [description|]; [|done].
  intros [= <-]. by exists title, description.
Qed.

(** Only [updatedAt], and [title] and [description] when the body has them,
    are named. *)
Lemma assignments_names now body fields k :
  assignments now body = Value fields → k ∈ fields.*1 →
  k = "updatedAt"
  ∨ k = "title" ∧ py_in "title" body = Value true
  ∨ k = "description" ∧ py_in "description" body = Value true.
Proof.
  intros (title & description & Ht & Hd & ->)%assignments_shape.
  apply requested_shape in Ht as [->|(v & -> & ?)];
    apply requested_shape in Hd as [->|(v' & -> & ?)]; simpl;
    rewrite ?elem_of_cons, elem_of_nil; intuition.
Qed.

Lemma assignments_NoDup now body fields :
  assignments now body = Value fields → NoDup fields.*1.
Proof.
  intros (title & description & Ht & Hd & ->)%assignments_shape.
  apply requested_shape in Ht as [->|(v & -> & ?)];
    apply requested_shape in Hd as [->|(v' & -> & ?)];
    by apply (bool_decide_unpack _).
Qed.

Lemma assignments_dict now (d : item) :
  assignments now (PDict d) =
    Value (("updatedAt", PStr (now +:+ "Z"))
             :: match d !! "title" with Some v => [("title", v)] | None => [] end
             ++ match d !! "description" with
                | Some v => [("description", v)]
                | None => []
                end).
Proof. unfold assignments. by rewrite !requested_dict. Qed.

(** Two invocations with one body set the same attributes to the same
    values, [updatedAt] apart. *)
Lemma assignments_later now now' body fields fields' :
  assignments now body = Value fields →
  assignments now' body = Value fields' →
  ∃ rest, fields = ("updatedAt", PStr (now +:+ "Z")) :: rest
          ∧ fields' = ("updatedAt", PStr (now' +:+ "Z")) :: rest.
Proof.
  intros (t & d & Ht & Hd & ->)%assignments_shape
         (t' & d' & Ht' & Hd' & ->)%assignments_shape.
  exists (t ++ d). split; [done|]. congruence.
Qed.

Lemma truthy_dict (d : item) : truthy (PDict d) = true ↔ d ≠ ∅.
Proof. simpl. by rewrite negb_true_iff, bool_decide_eq_false. Qed.
End building.

(** ** Numbers in a record *)

(** A record holds a number when one of its fields does. *)
Lemma holds_number_dict (d : item) :
  holds_number (PDict d) = true
  ↔ ∃ k v, d !! k = Some v ∧ holds_number v = true.
Proof.
  change (holds_number (PDict d))
    with (map_fold (λ (_ : string) x found, holds_number x || found) false d).
  apply (map_fold_weak_ind
           (λ r (m : item),
              r = true ↔ ∃ k v, m !! k = Some v ∧ holds_number v = true)).
  - split; [done|]. intros (k & v & Hk & _). by rewrite lookup_empty in Hk.
  - intros i x m r Hi IH. rewrite orb_true_iff, IH. split.
    + intros [Hx|(k & v & Hk & Hv)].
      * exists i, x. by rewrite lookup_insert_eq.
      * exists k, v. split; [|done].
        rewrite lookup_insert_ne; [done|]. intros ->. congruence.
    + intros (k & v & Hk & Hv). destruct (decide (i = k)) as [->|Hne].
      * rewrite lookup_insert_eq in Hk. injection Hk as ->. by left.
      * rewrite lookup_insert_ne in Hk by done. right. by exists k, v.
Qed.

(** Setting a field to a value without numbers brings no number in. *)
Lemma holds_number_insert (d : item) k v :
  holds_number v = false → holds_number (PDict d) = false →
  holds_number (PDict (<[k := v]> d)) = false.
Proof.
  intros Hv Hd. apply not_true_is_false.
  intros (k' & v' & Hk' & Hv')%holds_number_dict.
  destruct (decide (k = k')) as [->|Hne].
  - rewrite lookup_insert_eq in Hk'. congruence.
  - rewrite lookup_insert_ne in Hk' by done.
    assert (holds_number (PDict d) = true); [|congruence].
    apply holds_number_dict. by exists k', v'.
Qed.

(** A number in a field that is not set again stays in the record. *)
Lemma holds_number_merge (fields : list (string * pyval)) (r : item) k v :
  r !! k = Some v → holds_number v = true → k ∉ fields.*1 →
  holds_number (PDict (merge fields r)) = true.
Proof.
  intros Hk Hv Hout. apply holds_number_dict. exists k, v.
  split; [|done]. by rewrite lookup_merge_other.
Qed.


(** The run of an object body on an existing record, when the store serves
    the calls: the record it leaves, attribute by attribute, and the response,
    which is the record when it can be encoded. *)
Lemma dict_update_run `{JsonDecoder} event resource_id (d old : item) w :
  has_resource_id event resource_id →
  parsed_body event (PDict d) → d ≠ ∅ →
  table w !! resource_id = Some old →
  get_item_fault w = None → update_item_fault w = None →
  ∃ new,
    table (handler event w).2 = <[resource_id := new]> (table w)
    ∧ (handler event w).1
      = (if holds_number (PDict new)
         then Returned (failure_of not_serializable)
         else Returned (Response.make 200 cors_headers
                          (json_dumps (PDict new))))
    ∧ ∀ k, new !! k
           = if decide (k = "updatedAt")
             then Some (PStr (utcnow_isoformat w +:+ "Z"))
             else if decide (k = "title" ∨ k = "description")
                  then match d !! k with
                       | Some v => Some v
                       | None => old !! k
                       end
                  else old !! k.
Proof.
  intros Hid Hbody Hne Hold Hget Hupdate.
  assert (Hvalid : valid_request event resource_id (PDict d)).
  { split; [done|]. split; [done|]. by apply truthy_dict. }
  pose proof (assignments_dict (utcnow_isoformat w) d) as Hfields.
  set (fields := _ :: _) in Hfields.
  destruct (try_block_built resource_id (PDict d) old fields w)
    as (expression & values & Hrun); [done..|].
  rewrite Hupdate in Hrun.
  exists (merge fields old).
  rewrite (handler_valid _ _ _ _ Hvalid). unfold call_function. rewrite Hrun.
  cbv zeta.
  split; [by destruct (holds_number (PDict (merge fields old)))|].
  split; [by destruct (holds_number (PDict (merge fields old)))|].
  clear Hrun.
  assert (Hnodup : NoDup fields.*1) by eauto using assignments_NoDup.
  intros k. destruct (decide (k = "updatedAt")) as [->|Hu].
  { apply lookup_merge_set; [done|]. apply elem_of_cons. by left. }
  destruct (decide (k = "title" ∨ k = "description")) as [Hk|Hk].
  - destruct (d !! k) as [v|] eqn:Hd.
    + apply lookup_merge_set; [done|]. subst fields.
      destruct Hk as [-> | ->]; rewrite Hd;
        rewrite elem_of_cons, elem_of_app, !list_elem_of_singleton; auto.
    + apply lookup_merge_other. subst fields. simpl.
      destruct Hk as [-> | ->]; rewrite Hd; simpl;
        [destruct (d !! "description")|destruct (d !! "title")]; simpl;
        rewrite ?elem_of_cons, elem_of_nil; intuition discriminate.
  - apply lookup_merge_other. intros Hin.
    eapply assignments_names in Hin as [?|[[? _]|[? _]]]; [| | |done];
      intuition.
Qed.

(** ** The scenarios of the specification *)

Example split_clauses :
  parse_update_expression
    "SET updatedAt = :updated_at, title = :title, description = :description"
  = Some [("updatedAt", ":updated_at"); ("title", ":title");
          ("description", ":description")].
Proof. reflexivity. Qed.

(** Record [r1] exists; the body [{"title": "B"}] gives 200 and the record
    with the new title and stamp. *)
Example scenario_update :
  (handler (H := sample_decoder) (request "r1" (object_text "title" "B"))
     (healthy {[ "r1" := r1 ]} reading)).1
  = Returned (Response.make 200 cors_headers
      (json_dumps (PDict {[ "id" := PStr "r1"; "title" := PStr "B";
                            "description" := PStr "d";
                            "updatedAt" := PStr "2024-03-01T12:00:00.000250Z" ]}))).
Proof. vm_compute. reflexivity. Qed.

(** Record [r2] does not exist; the body [{"title": "X"}] gives 404. *)
Example scenario_not_found :
  (handler (H := sample_decoder) (request "r2" (object_text "title" "X"))
     (healthy {[ "r1" := r1 ]} reading)).1
  = Returned (Response.make 404 json_headers
      (json_dumps (PDict {[ "error" :=
         PStr "Resource with id 'r2' not found" ]}))).
Proof. vm_compute. reflexivity. Qed.

(** The body [7] passes the emptiness check, and the read; testing it for
    [title] raises, which the last [except] clause turns into a 500. *)
Example scenario_number_body :
  handler (H := sample_decoder) (request "r1" "7")
    (healthy {[ "r1" := r1 ]} reading)
  = (Returned (failure_response "Internal server error"
                 "argument of type 'int' is not iterable"),
     World {[ "r1" := r1 ]} reading None None [GetItem "r1"]
       ["Unexpected error: argument of type 'int' is not iterable"]).
Proof. vm_compute. reflexivity. Qed.

(** ** The claims of the specification *)




(** C2.  An invocation that returns 200 has changed one record of the table,
    the one the request names, and in that record only fields that the
    update names: [updatedAt], [title] when the body has it, [description]
    when the body has it.  Every other field, [id] among them, is as it
    was. *)
Theorem update_changes_named_fields_only `{JsonDecoder} event w response w' :
  handler event w = (Returned response, w') →
  Response.statusCode response = 200 →
  ∃ resource_id body old new,
    valid_request event resource_id body
    ∧ table w !! resource_id = Some old
    ∧ table w' = <[resource_id := new]> (table w)
    ∧ new !! "id" = old !! "id"
    ∧ ∀ k, new !! k = old !! k
           ∨ k = "updatedAt"
           ∨ k = "title" ∧ py_in "title" body = Value true
           ∨ k = "description" ∧ py_in "description" body = Value true.
Proof.
  intros Hrun%handler_inv Hstatus.
  inversion Hrun as [| |? ? e| |? ? ? e|? ? ? ? ? ? e|rid body old fields|];
    subst; try discriminate; try (by destruct e).
  exists rid, body, old, (merge fields old).
  split; [done|]. split; [done|]. split; [done|]. split.
  - apply lookup_merge_other. intros Hin.
    eapply assignments_names in Hin as [?|[[? _]|[? _]]]; [| | |done]; done.
  - intros k. destruct (decide (k ∈ fields.*1)) as [Hin|Hout].
    + right. by eapply assignments_names.
    + left. by apply lookup_merge_other.
Qed.

Lemma update_changes_named_fields_only_witness :
  ∃ resource_id body old new,
    valid_request (H := sample_decoder)
      (request "r1" (object_text "title" "B")) resource_id body
    ∧ table (healthy {[ "r1" := r1 ]} reading) !! resource_id = Some old
    ∧ table (handler (H := sample_decoder)
               (request "r1" (object_text "title" "B"))
               (healthy {[ "r1" := r1 ]} reading)).2
        = <[resource_id := new]> (table (healthy {[ "r1" := r1 ]} reading))
    ∧ new !! "id" = old !! "id"
    ∧ ∀ k, new !! k = old !! k
           ∨ k = "updatedAt"
           ∨ k = "title" ∧ py_in "title" body = Value true
           ∨ k = "description" ∧ py_in "description" body = Value true.
Proof.
  refine (update_changes_named_fields_only (H := sample_decoder)
            (request "r1" (object_text "title" "B"))
            (healthy {[ "r1" := r1 ]} reading) _ _ _ _).
  - vm_compute. reflexivity.
  - reflexivity.
Defined.

(** C3, where the code falls short of it.  API Gateway sends [null] as the
    [pathParameters] of a request that has none.  The [resourceId] is then
    absent, and the handler does not answer 400: [event.get("pathParameters",
    {})] is [None], calling [.get("resourceId")] on it raises
    [AttributeError], and the statement stands before the [try] block, so the
    exception leaves the handler.  This holds whatever the body is. *)
Theorem null_path_parameters_escape `{JsonDecoder} body w :
  handler (Event.make (Present None) body) w
    = (Escaped (AttributeError "'NoneType' object has no attribute 'get'"), w).
Proof. reflexivity. Qed.

(** C4.  A request that passes validation and names a record the store does
    not hold gets 404, with the body
    [{"error": "Resource with id '<id>' not found"}]; the store is read once
    and not written. *)
Theorem missing_record_is_404 `{JsonDecoder} event resource_id body w :
  valid_request event resource_id body →
  get_item_fault w = None →
  table w !! resource_id = None →
  ∃ w',
    handler event w =
      (Returned (Response.make 404 json_headers
         (json_dumps (PDict {[ "error" :=
            PStr ("Resource with id '" +:+ resource_id +:+ "' not found") ]}))),
       w')
    ∧ reads w' = reads w ++ [GetItem resource_id]
    ∧ writes w' = writes w
    ∧ table w' = table w.
Proof.
  intros Hvalid Hget Hnone. exists (log_call (GetItem resource_id) w).
  split; [|by rewrite reads_log_get, writes_log_get].
  rewrite (handler_valid _ _ _ _ Hvalid). unfold call_function.
  by rewrite try_block_not_found.
Qed.

Lemma missing_record_is_404_witness :
  ∃ w',
    handler (H := sample_decoder) (request "r2" (object_text "title" "X"))
      (healthy {[ "r1" := r1 ]} reading) =
      (Returned (Response.make 404 json_headers
         (json_dumps (PDict {[ "error" :=
            PStr "Resource with id 'r2' not found" ]}))),
       w')
    ∧ reads w' = [GetItem "r2"]
    ∧ writes w' = []
    ∧ table w' = {[ "r1" := r1 ]}.
Proof.
  refine (missing_record_is_404 (H := sample_decoder)
            (request "r2" (object_text "title" "X")) "r2"
            (PDict {[ "title" := PStr "X" ]})
            (healthy {[ "r1" := r1 ]} reading) _ _ _).
  - split; [|split].
    + exists {[ "resourceId" := "r2" ]}.
      split; [reflexivity|]. split; [reflexivity|discriminate].
    + exists (object_text "title" "X"). split; reflexivity.
    + reflexivity.
  - reflexivity.
  - reflexivity.
Defined.

(** C5.  When the handler has issued its write and the store fails it with a
    [ClientError], the response is the 500 with the body
    [{"error": "Failed to update resource", "details": <the store's message>}],
    and the table is as it was. *)
Theorem failed_write_is_500 `{JsonDecoder} event w result w'
    operation code message :
  handler event w = (result, w') →
  update_item_fault w = Some (ClientError operation code message) →
  writes w' ≠ writes w →
  result = Returned (Response.make 500 json_headers
             (json_dumps (PDict {[ "error" := PStr "Failed to update resource";
                                   "details" := PStr message ]})))
  ∧ table w' = table w.
Proof.
  intros Hrun%handler_inv Hfault Hwrite.
  inversion Hrun as [| | | | |rid body old fields expression values e| |];
    subst;
    try (by rewrite ?writes_stdout, ?writes_log_get in Hwrite);
    [|congruence..].
  by assert (e = ClientError operation code message) as -> by congruence.
Qed.

Lemma failed_write_is_500_witness :
  (handler (H := sample_decoder) (request "r1" (object_text "title" "B"))
     (World {[ "r1" := r1 ]} reading None (Some throttled) [] [])).1
    = Returned (Response.make 500 json_headers
        (json_dumps (PDict {[ "error" := PStr "Failed to update resource";
                              "details" := PStr "Rate exceeded" ]})))
  ∧ table (handler (H := sample_decoder)
             (request "r1" (object_text "title" "B"))
             (World {[ "r1" := r1 ]} reading None (Some throttled) [] [])).2
    = {[ "r1" := r1 ]}.
Proof.
  refine (failed_write_is_500 (H := sample_decoder)
            (request "r1" (object_text "title" "B"))
            (World {[ "r1" := r1 ]} reading None (Some throttled) [] [])
            _ _ "UpdateItem" "ProvisionedThroughputExceededException"
            "Rate exceeded" _ _ _).
  - apply surjective_pairing.
  - reflexivity.
  - vm_compute. discriminate.
Defined.

(** C6, where the code falls short of it.  API Gateway sends [null] as the
    body of a request that has none.  [json.loads(None)] raises [TypeError];
    the statement stands before the [try] block and its own [except] clause
    catches [JSONDecodeError] only, so the exception leaves the handler and
    no response is returned. *)
Theorem null_body_escapes `{JsonDecoder} w :
  handler (Event.make (Present (Some {[ "resourceId" := "r1" ]}))
                      (Present None)) w
    = (Escaped (TypeError
         "the JSON object must be str, bytes or bytearray, not NoneType"),
       w).
Proof. reflexivity. Qed.

(** C7, amended.  No write is issued when the record does not exist, nor
    when the request body is the empty object. *)
Theorem no_write_without_record_or_body `{JsonDecoder} event w :
  (∀ resource_id,
     has_resource_id event resource_id → table w !! resource_id = None)
  ∨ parsed_body event (PDict ∅) →
  writes (handler event w).2 = writes w.
Proof.
  intros Hcond. destruct (handler event w) as [res w'] eqn:Hrun.
  apply handler_inv in Hrun.
  destruct Hrun as [| | | |
                   |rid body old ? ? ? ? Hvalid ? Hfound
                   |rid body old ? ? ? Hvalid ? Hfound
                   |rid body old ? ? ? Hvalid ? Hfound]; simpl;
    try (by rewrite ?writes_stdout, ?writes_log_get); exfalso;
    destruct Hvalid as (Hid & Hbody & Htruthy);
    (destruct Hcond as [Hnone|Hempty];
     [rewrite (Hnone rid Hid) in Hfound; discriminate
     |by rewrite (parsed_body_unique _ _ _ Hbody Hempty) in Htruthy]).
Qed.

Lemma no_write_without_record_or_body_witness :
  writes (handler (H := sample_decoder)
            (request "r2" (object_text "title" "X"))
            (healthy {[ "r1" := r1 ]} reading)).2 = []
  ∧ writes (handler (H := sample_decoder) (request "r1" "{}")
              (healthy {[ "r1" := r1 ]} reading)).2 = [].
Proof.
  split.
  - refine (no_write_without_record_or_body (H := sample_decoder)
              (request "r2" (object_text "title" "X"))
              (healthy {[ "r1" := r1 ]} reading) _).
    left. intros resource_id (pp & [= <-] & Hrid & _).
    apply lookup_singleton_Some in Hrid as [_ <-]. reflexivity.
  - refine (no_write_without_record_or_body (H := sample_decoder)
              (request "r1" "{}") (healthy {[ "r1" := r1 ]} reading) _).
    right. exists "{}". split; reflexivity.
Defined.

(** C7 as stated fails.  The body [{"foo": "bar"}] has neither [title] nor
    [description]; on the existing record [r1] the handler still issues a
    write, which sets [updatedAt]. *)
Lemma write_without_updatable_field :
  let event := request "r1" (object_text "foo" "bar") in
  let w := healthy {[ "r1" := r1 ]} reading in
  let d : item := {[ "foo" := PStr "bar" ]} in
  parsed_body (H := sample_decoder) event (PDict d)
  ∧ d !! "title" = None ∧ d !! "description" = None
  ∧ table w !! "r1" = Some r1
  ∧ writes w = []
  ∧ writes (handler (H := sample_decoder) event w).2
    = [UpdateItem "r1" "SET updatedAt = :updated_at"
         {[ ":updated_at" := PStr "2024-03-01T12:00:00.000250Z" ]} "ALL_NEW"].
Proof.
  split; [by exists (object_text "foo" "bar")|].
  repeat split; vm_compute; reflexivity.
Qed.

(** C8, where the code falls short of it.  The record [r3] holds a number in
    its [count] field, which the table returns as a [Decimal].  The body
    [{"foo": "bar"}] has neither [title] nor [description]: the handler reads
    the record, writes the new [updatedAt], and then fails to encode the
    record it got back.  It answers 500, not 200, with the write applied. *)
Theorem unrecognized_keys_on_number_record :
  handler (H := sample_decoder) (request "r3" (object_text "foo" "bar"))
    (healthy {[ "r3" := r3 ]} reading)
  = (Returned (failure_response "Internal server error"
                 "Object of type Decimal is not JSON serializable"),
     World
       {[ "r3" := <["updatedAt" := PStr "2024-03-01T12:00:00.000250Z"]> r3 ]}
       reading None None
       [GetItem "r3";
        UpdateItem "r3" "SET updatedAt = :updated_at"
          {[ ":updated_at" := PStr "2024-03-01T12:00:00.000250Z" ]} "ALL_NEW"]
       ["Unexpected error: Object of type Decimal is not JSON serializable"]).
Proof. vm_compute. reflexivity. Qed.

(** C9.  When an invocation has returned 200, a second invocation on the same
    event, at any later clock reading and whatever the store then does,
    leaves every record with the [title] and the [description] the first one
    left: between the two calls only [updatedAt] can differ. *)
Theorem repeated_update_keeps_fields `{JsonDecoder} event w response
    now' get_fault' update_fault' :
  let w1 := (handler event w).2 in
  let w2 := (handler event (later now' get_fault' update_fault' w1)).2 in
  (handler event w).1 = Returned response →
  Response.statusCode response = 200 →
  ∀ resource_id,
    table w2 !! resource_id ≫= (.!! "title")
      = table w1 !! resource_id ≫= (.!! "title")
    ∧ table w2 !! resource_id ≫= (.!! "description")
        = table w1 !! resource_id ≫= (.!! "description")
    ∧ ∀ k, k ≠ "updatedAt" →
           table w2 !! resource_id ≫= (.!! k)
             = table w1 !! resource_id ≫= (.!! k).
Proof.
  simpl. intros Hfirst Hstatus.
  assert (Hall : ∀ resource_id k, k ≠ "updatedAt" →
            table (handler event (later now' get_fault' update_fault'
                                    (handler event w).2)).2
              !! resource_id ≫= (.!! k)
            = table (handler event w).2 !! resource_id ≫= (.!! k));
    [|by auto].
  destruct (handler event w) as [res w1] eqn:Hrun1. simpl in *. subst res.
  apply handler_inv in Hrun1.
  inversion Hrun1 as [| |? ? e| |? ? ? e|? ? ? ? ? ? e
                     |rid body old fields expression values Hvalid _ Hold Hfields
                     |];
    subst; try discriminate; try (by destruct e).
  set (new := merge fields old) in *.
  set (w1 := set_table _ _).
  destruct (handler event (later now' get_fault' update_fault' w1))
    as [res2 w2] eqn:Hrun2.
  apply handler_inv in Hrun2. intros resource_id k Hk.
  destruct Hrun2 as [| | | | |
                    |rid2 body2 old2 fields2 ? ? Hvalid2 _ Hold2 Hfields2 _ _
                    |rid2 body2 old2 fields2 ? ? Hvalid2 _ Hold2 Hfields2 _ _];
    try done.
  all: destruct (valid_request_unique _ _ _ _ _ Hvalid Hvalid2) as [<- <-].
  all: simpl in *; rewrite lookup_insert_eq in Hold2; injection Hold2 as <-.
  all: destruct (decide (resource_id = rid)) as [->|Hother];
    [|by rewrite !lookup_insert_ne].
  all: rewrite !lookup_insert_eq; simpl.
  all: destruct (assignments_later _ _ _ _ _ Hfields Hfields2)
    as (rest & -> & ->).
  all: subst new; unfold merge at 1 3; simpl; fold (merge rest).
  all: apply lookup_merge_again; by rewrite lookup_insert_ne.
Qed.

Lemma repeated_update_keeps_fields_witness :
  let event := request "r1" (object_text "title" "B") in
  let w1 := (handler (H := sample_decoder) event
               (healthy {[ "r1" := r1 ]} reading)).2 in
  let w2 := (handler (H := sample_decoder) event
               (later reading' None None w1)).2 in
  table w2 !! "r1" ≫= (.!! "title") = table w1 !! "r1" ≫= (.!! "title")
  ∧ table w2 !! "r1" ≫= (.!! "description")
      = table w1 !! "r1" ≫= (.!! "description")
  ∧ ∀ k, k ≠ "updatedAt" →
         table w2 !! "r1" ≫= (.!! k) = table w1 !! "r1" ≫= (.!! k).
Proof.
  refine (repeated_update_keeps_fields (H := sample_decoder)
            (request "r1" (object_text "title" "B"))
            (healthy {[ "r1" := r1 ]} reading) _ reading' None None _ _ "r1").
  - vm_compute. reflexivity.
  - reflexivity.
Defined.

(** C10, where the code falls short of it.  The body [[1]] is valid JSON and
    not an object.  It passes the emptiness check and the store is read, so
    there is no 400; on the existing record [r3], which holds a number, the
    handler sets [updatedAt] and then fails to encode the record it got
    back: it answers 500, not 200. *)
Theorem array_body_on_number_record :
  handler (H := sample_decoder) (request "r3" "[1]")
    (healthy {[ "r3" := r3 ]} reading)
  = (Returned (failure_response "Internal server error"
                 "Object of type Decimal is not JSON serializable"),
     World
       {[ "r3" := <["updatedAt" := PStr "2024-03-01T12:00:00.000250Z"]> r3 ]}
       reading None None
       [GetItem "r3";
        UpdateItem "r3" "SET updatedAt = :updated_at"
          {[ ":updated_at" := PStr "2024-03-01T12:00:00.000250Z" ]} "ALL_NEW"]
       ["Unexpected error: Object of type Decimal is not JSON serializable"]).
Proof. vm_compute. reflexivity. Qed.

(** * Further properties of the handler *)

(** ** The run of a valid request, stage by stage *)

Section stages.
Context `{JsonDecoder}.

Lemma handler_read_failed event resource_id body e w :
  valid_request event resource_id body →
  get_item_fault w = Some e →
  handler event w =
    (Returned (failure_of e),
     write_stdout (log_line e) (log_call (GetItem resource_id) w)).
Proof.
  intros Hvalid Hget. rewrite (handler_valid _ _ _ _ Hvalid).
  unfold call_function. by rewrite (try_block_read_failed _ _ e).
Qed.

Lemma handler_bad_body event resource_id body old e w :
  valid_request event resource_id body →
  get_item_fault w = None → table w !! resource_id = Some old →
  assignments (utcnow_isoformat w) body = Raises e →
  handler event w =
    (Returned (failure_of e),
     write_stdout (log_line e) (log_call (GetItem resource_id) w)).
Proof.
  intros Hvalid Hget Hold Hfields. rewrite (handler_valid _ _ _ _ Hvalid).
  unfold call_function. by rewrite (try_block_bad_body _ _ old e).
Qed.

(** The update expression and the values the handler builds denote the
    assignments. *)
Lemma built_request now body fields :
  assignments now body = Value fields →
  ∃ expression values,
    parse_update_expression expression ≫= mapM (resolve values) = Some fields
    ∧ ∀ resource_id old w,
        utcnow_isoformat w = now →
        get_item_fault w = None → table w !! resource_id = Some old →
        try_except (handler_try resource_id body) handler_except w =
          try_except
            (update_response ←
               update_item resource_id expression values "ALL_NEW";
             match UpdateItemOutput.Attributes update_response with
             | None => lift (Raises (KeyError "Attributes"))
             | Some updated_resource =>
                 body ← lift (py_json_dumps (PDict updated_resource));
                 return_ (Response.make 200 cors_headers body)
             end) handler_except (log_call (GetItem resource_id) w).
Proof.
  intros Ha. unfold assignments, requested in Ha.
  set (stamp := PStr (now +:+ "Z")) in *.
  destruct (py_in "title" body) as [[]|] eqn:Ht; [| |done].
  - destruct (py_getitem body "title") as [title|] eqn:Hgt; [|done].
    destruct (py_in "description" body) as [[]|] eqn:Hd; [| |done].
    + destruct (py_getitem body "description") as [description|] eqn:Hgd;
        [|done].
      injection Ha as <-.
      exists "SET updatedAt = :updated_at, title = :title, description = :description",
        (<[":description" := description]>
           (<[":title" := title]> {[ ":updated_at" := stamp ]})).
      split; [reflexivity|]. intros rid old w <- Hg Hf.
      step. rewrite Hg. simpl. rewrite Hf, Ht, Hgt, Hd, Hgd. reflexivity.
    + injection Ha as <-.
      exists "SET updatedAt = :updated_at, title = :title",
        (<[":title" := title]> {[ ":updated_at" := stamp ]}).
      split; [reflexivity|]. intros rid old w <- Hg Hf.
      step. rewrite Hg. simpl. rewrite Hf, Ht, Hgt, Hd. reflexivity.
  - destruct (py_in "description" body) as [[]|] eqn:Hd; [| |done].
    + destruct (py_getitem body "description") as [description|] eqn:Hgd;
        [|done].
      injection Ha as <-.
      exists "SET updatedAt = :updated_at, description = :description",
        (<[":description" := description]> {[ ":updated_at" := stamp ]}).
      split; [reflexivity|]. intros rid old w <- Hg Hf.
      step. rewrite Hg. simpl. rewrite Hf, Ht, Hd, Hgd. reflexivity.
    + injection Ha as <-.
      exists "SET updatedAt = :updated_at", ({[ ":updated_at" := stamp ]} : item).
      split; [reflexivity|]. intros rid old w <- Hg Hf.
      step. rewrite Hg. simpl. rewrite Hf, Ht, Hd. reflexivity.
Qed.

Lemma handler_built event resource_id body old fields w :
  valid_request event resource_id body →
  get_item_fault w = None → table w !! resource_id = Some old →
  assignments (utcnow_isoformat w) body = Value fields →
  ∃ expression values,
    parse_update_expression expression ≫= mapM (resolve values) = Some fields
    ∧ handler event w =
        let w' := log_call (UpdateItem resource_id expression values "ALL_NEW")
                    (log_call (GetItem resource_id) w) in
        match update_item_fault w with
        | Some e => (Returned (failure_of e), write_stdout (log_line e) w')
        | None =>
            let w'' :=
              set_table (<[resource_id := merge fields old]> (table w)) w' in
            if holds_number (PDict (merge fields old))
            then (Returned (failure_of not_serializable),
                  write_stdout (log_line not_serializable) w'')
            else (Returned (Response.make 200 cors_headers
                              (json_dumps (PDict (merge fields old)))),
                  w'')
        end.
Proof.
  intros Hvalid Hget Hold Hfields.
  destruct (built_request _ _ _ Hfields) as (expression & values & Hparse & Hrun).
  exists expression, values. split; [done|].
  rewrite (handler_valid _ _ _ _ Hvalid). unfold call_function.
  rewrite (Hrun resource_id old w) by done.
  unfold try_except, mbind, M_bind.
  destruct (update_item_fault w) as [e|] eqn:Hu.
  - rewrite (update_item_failed _ _ _ _ e) by done.
    by rewrite handler_except_catches.
  - rewrite (update_item_served _ _ _ fields) by done.
    simpl. rewrite Hold. simpl. unfold lift, py_json_dumps.
    destruct (holds_number (PDict (merge fields old))); [|done].
    by rewrite handler_except_catches.
Qed.
End stages.

(** X1.  An exception leaves the handler exactly when a statement before the
    [try] block raises: [pathParameters] is [null], the body is [null], or
    [json.loads] raises something other than [JSONDecodeError].  The world is
    then as it was: no store call, nothing printed. *)
Theorem escapes_exactly_when_broken `{JsonDecoder} event w e :
  (breaks event e → handler event w = (Escaped e, w))
  ∧ (∀ w', handler event w = (Escaped e, w') → breaks event e ∧ w' = w).
Proof.
  split; [apply breaks_escapes|].
  intros w' Hrun%handler_inv. by inversion Hrun.
Qed.

(** X2.  A request that passes validation is always answered, whatever the
    table holds and whatever the store does, with status 200, 404 or 500:
    nothing raised inside the [try] block leaves the handler. *)
Theorem valid_request_is_answered `{JsonDecoder} event resource_id body w :
  valid_request event resource_id body →
  ∃ response w',
    handler event w = (Returned response, w')
    ∧ Response.statusCode response ∈ [200; 404; 500].
Proof.
  intros Hvalid. destruct (handler event w) as [res w'] eqn:Hrun.
  apply handler_inv in Hrun.
  destruct Hrun as [e Hbreaks|message Hrejected|? ? e| |? ? ? e|? ? ? ? ? ? e| |];
    try (by destruct (valid_not_breaks _ _ _ _ Hvalid Hbreaks));
    try (by destruct (valid_not_rejected _ _ _ _ Hvalid Hrejected));
    eexists _, _; (split; [done|]);
    try destruct e; simpl; rewrite !elem_of_cons; auto.
Qed.

Lemma valid_request_is_answered_witness :
  ∃ response w',
    handler (H := sample_decoder) (request "r1" "7")
      (World {[ "r1" := r1 ]} reading (Some unreachable) (Some throttled)
         [] []) = (Returned response, w')
    ∧ Response.statusCode response ∈ [200; 404; 500].
Proof.
  refine (valid_request_is_answered (H := sample_decoder) (request "r1" "7")
            "r1" (PInt 7)
            (World {[ "r1" := r1 ]} reading (Some unreachable)
               (Some throttled) [] []) _).
  split; [|split].
  - exists {[ "resourceId" := "r1" ]}.
    split; [reflexivity|]. split; [reflexivity|discriminate].
  - exists "7". split; reflexivity.
  - reflexivity.
Defined.

(** X3.  Every response says [Content-Type: application/json]; the header
    [Access-Control-Allow-Origin: *] is on the 200 response and on no
    other. *)
Theorem cors_header_on_success_only `{JsonDecoder} event w response w' :
  handler event w = (Returned response, w') →
  Response.headers response !! "Content-Type" = Some "application/json"
  ∧ Response.headers response !! "Access-Control-Allow-Origin"
    = if decide (Response.statusCode response = 200) then Some "*" else None.
Proof.
  intros Hrun%handler_inv.
  inversion Hrun as [| |? ? e| |? ? ? e|? ? ? ? ? ? e| |]; subst;
    try destruct e; by split.
Qed.

Lemma cors_header_on_success_only_witness :
  Response.headers (error_response 404 (not_found_message "r2"))
    !! "Content-Type" = Some "application/json"
  ∧ Response.headers (error_response 404 (not_found_message "r2"))
      !! "Access-Control-Allow-Origin" = None.
Proof.
  refine (cors_header_on_success_only (H := sample_decoder)
            (request "r2" (object_text "title" "X"))
            (healthy {[ "r1" := r1 ]} reading) _
            (log_call (GetItem "r2") (healthy {[ "r1" := r1 ]} reading)) _).
  vm_compute. reflexivity.
Defined.

(** X4.  One invocation makes no store call, or one read, or one read
    followed by one write.  Both are for the [resourceId] of the request, and
    the write asks for [ALL_NEW]. *)
Theorem one_read_then_one_write `{JsonDecoder} event w :
  calls (handler event w).2 = calls w
  ∨ ∃ resource_id,
      has_resource_id event resource_id
      ∧ (calls (handler event w).2 = calls w ++ [GetItem resource_id]
         ∨ ∃ expression values,
             calls (handler event w).2
               = calls w ++ [GetItem resource_id;
                             UpdateItem resource_id expression values
                               "ALL_NEW"]).
Proof.
  destruct (handler event w) as [res w'] eqn:Hrun. apply handler_inv in Hrun.
  destruct Hrun as [| |rid ? ? [Hid _]|rid ? [Hid _]|rid ? ? ? [Hid _]
                   |rid ? ? ? expression values ? [Hid _]
                   |rid ? ? ? expression values [Hid _]
                   |rid ? ? ? expression values [Hid _]]; simpl;
    [by left|by left|right; exists rid; (split; [done|])..].
  - by left.
  - by left.
  - by left.
  - right. exists expression, values. by rewrite <- app_assoc.
  - right. exists expression, values. by rewrite <- app_assoc.
  - right. exists expression, values. by rewrite <- app_assoc.
Qed.

Lemma not_snoc_self {A} (l : list A) x : l ≠ l ++ [x].
Proof.
  intros Heq%(f_equal List.length). rewrite length_app in Heq.
  simpl in Heq. lia.
Qed.

(** An invocation that issued a write went through every stage before it. *)
Lemma write_issued_inv `{JsonDecoder} event w :
  writes (handler event w).2 ≠ writes w →
  ∃ resource_id body old fields expression values,
    valid_request event resource_id body
    ∧ get_item_fault w = None
    ∧ table w !! resource_id = Some old
    ∧ assignments (utcnow_isoformat w) body = Value fields
    ∧ parse_update_expression expression ≫= mapM (resolve values)
      = Some fields
    ∧ handler event w =
        let w' := log_call (UpdateItem resource_id expression values "ALL_NEW")
                    (log_call (GetItem resource_id) w) in
        match update_item_fault w with
        | Some e => (Returned (failure_of e), write_stdout (log_line e) w')
        | None =>
            let w'' :=
              set_table (<[resource_id := merge fields old]> (table w)) w' in
            if holds_number (PDict (merge fields old))
            then (Returned (failure_of not_serializable),
                  write_stdout (log_line not_serializable) w'')
            else (Returned (Response.make 200 cors_headers
                              (json_dumps (PDict (merge fields old)))),
                  w'')
        end.
Proof.
  intros Hwrites. pose proof (handler_outcome event w) as Hrun.
  destruct (handler event w) as [res w'] eqn:Heq. simpl in *.
  destruct Hrun as [| | | |
                   |rid body old fields ex vs e Hvalid Hget Hold Hfields Hfault
                   |rid body old fields ex vs Hvalid Hget Hold Hfields Hfault
                   |rid body old fields ex vs Hvalid Hget Hold Hfields Hfault];
    try (by rewrite ?writes_stdout, ?writes_log_get in Hwrites);
    destruct (handler_built event rid body old fields w)
      as (expression & values & Hparse & Hrun); try done;
    exists rid, body, old, fields, expression, values;
    repeat (split; [done|]); by rewrite <- Heq.
Qed.

(** X5.  What the handler hands to [update_item] reads back as what it means
    to set: the update expression, with the values of its placeholders, parses
    into the assignments of the invocation.  The first sets [updatedAt] to the
    clock reading followed by [Z], and no attribute other than [updatedAt],
    [title] and [description] is named, so never the key [id]. *)
Theorem write_request_denotes_assignments `{JsonDecoder} event w
    key expression values return_values :
  writes (handler event w).2
    = writes w ++ [UpdateItem key expression values return_values] →
  ∃ body fields,
    valid_request event key body
    ∧ assignments (utcnow_isoformat w) body = Value fields
    ∧ parse_update_expression expression ≫= mapM (resolve values)
      = Some fields
    ∧ return_values = "ALL_NEW"
    ∧ fields !! 0%nat = Some ("updatedAt", PStr (utcnow_isoformat w +:+ "Z"))
    ∧ ∀ k, k ∈ fields.*1 → k ∈ ["updatedAt"; "title"; "description"].
Proof.
  intros Hwrites.
  destruct (write_issued_inv event w)
    as (rid & body & old & fields & expression' & values' & Hvalid & _ & _
        & Hfields & Hparse & Hrun).
  { rewrite Hwrites. intros Heq. symmetry in Heq. by apply not_snoc_self in Heq. }
  rewrite Hrun in Hwrites. simpl in Hwrites.
  assert (UpdateItem rid expression' values' "ALL_NEW"
          = UpdateItem key expression values return_values) as [= -> -> -> <-].
  { destruct (update_item_fault w);
      [|destruct (holds_number (PDict (merge fields old)))];
      simpl in Hwrites; rewrite ?writes_stdout in Hwrites;
      unfold writes in Hwrites; simpl in Hwrites;
      rewrite !List.filter_app in Hwrites; simpl in Hwrites;
      rewrite app_nil_r in Hwrites;
      by apply app_inj_tail in Hwrites as [_ ?]. }
  exists body, fields. repeat (split; [done|]).
  apply assignments_shape in Hfields as Hshape.
  destruct Hshape as (title & description & _ & _ & ->). split; [done|].
  intros k Hk. eapply assignments_names in Hk as [->|[[-> _]|[-> _]]];
    [| | |done]; rewrite !elem_of_cons; auto.
Qed.

Lemma write_request_denotes_assignments_witness :
  ∃ body fields,
    valid_request (H := sample_decoder)
      (request "r1" (object_text "title" "B")) "r1" body
    ∧ assignments reading body = Value fields
    ∧ parse_update_expression "SET updatedAt = :updated_at, title = :title"
        ≫= mapM (resolve (<[":title" := PStr "B"]>
                            {[ ":updated_at" := PStr (reading +:+ "Z") ]}))
      = Some fields
    ∧ "ALL_NEW" = "ALL_NEW"
    ∧ fields !! 0%nat = Some ("updatedAt", PStr (reading +:+ "Z"))
    ∧ ∀ k, k ∈ fields.*1 → k ∈ ["updatedAt"; "title"; "description"].
Proof.
  refine (write_request_denotes_assignments (H := sample_decoder)
            (request "r1" (object_text "title" "B"))
            (healthy {[ "r1" := r1 ]} reading) "r1"
            "SET updatedAt = :updated_at, title = :title"
            (<[":title" := PStr "B"]>
               {[ ":updated_at" := PStr (reading +:+ "Z") ]})
            "ALL_NEW" _).
  vm_compute. reflexivity.
Defined.

(** X6.  The handler prints one line when it answers 500, and nothing when it
    answers anything else.  The line carries what the response carries: the
    store's code and message for a [ClientError], the text of the exception
    otherwise. *)
Theorem prints_once_on_500 `{JsonDecoder} event w response w' :
  handler event w = (Returned response, w') →
  if decide (Response.statusCode response = 500)
  then ∃ line,
         stdout w' = stdout w ++ [line]
         ∧ ((∃ code message,
               line = "DynamoDB error: " +:+ code +:+ " - " +:+ message
               ∧ response
                 = failure_response "Failed to update resource" message)
            ∨ (∃ details,
                 line = "Unexpected error: " +:+ details
                 ∧ response
                   = failure_response "Internal server error" details))
  else stdout w' = stdout w.
Proof.
  intros Hrun%handler_inv.
  inversion Hrun as [| |? ? e| |? ? ? e|? ? ? ? ? ? e| |]; subst; try done;
    [..|simpl; exists (log_line not_serializable); split; [done|]; right;
        by exists (exn_str not_serializable)];
    (assert (Response.statusCode (failure_of e) = 500) as -> by (by destruct e));
    simpl; exists (log_line e); (split; [done|]);
    destruct e; simpl; eauto.
Qed.

Lemma prints_once_on_500_witness :
  ∃ line,
    ["Unexpected error: argument of type 'int' is not iterable"]
      = [] ++ [line]
    ∧ ((∃ code message,
          line = "DynamoDB error: " +:+ code +:+ " - " +:+ message
          ∧ failure_response "Internal server error"
              "argument of type 'int' is not iterable"
            = failure_response "Failed to update resource" message)
       ∨ (∃ details,
            line = "Unexpected error: " +:+ details
            ∧ failure_response "Internal server error"
                "argument of type 'int' is not iterable"
              = failure_response "Internal server error" details)).
Proof.
  refine (prints_once_on_500 (H := sample_decoder) (request "r1" "7")
            (healthy {[ "r1" := r1 ]} reading)
            (failure_response "Internal server error"
               "argument of type 'int' is not iterable")
            (World {[ "r1" := r1 ]} reading None None [GetItem "r1"]
               ["Unexpected error: argument of type 'int' is not iterable"])
            _).
  vm_compute. reflexivity.
Defined.

(** X7.  No invocation creates or deletes a record, and none changes a
    record other than the one its [resourceId] names. *)
Theorem other_records_untouched `{JsonDecoder} event w :
  dom (table (handler event w).2) = dom (table w)
  ∧ ∀ key, ¬ has_resource_id event key →
           table (handler event w).2 !! key = table w !! key.
Proof.
  destruct (handler event w) as [res w'] eqn:Hrun. apply handler_inv in Hrun.
  destruct Hrun as [| | | | |
                   |rid ? old ? ? ? [Hid _] _ Hold
                   |rid ? old ? ? ? [Hid _] _ Hold]; simpl;
    try done.
  all: split; [apply dom_insert_lookup_L; by rewrite Hold|].
  all: intros key Hkey; apply lookup_insert_ne; by intros ->.
Qed.

(** X8.  When the read fails, the handler answers 500 after that one call and
    writes nothing: for a [ClientError] with "Failed to update resource" and
    the store's message, for any other exception with "Internal server error"
    and its text. *)
Theorem failed_read_is_500 `{JsonDecoder} event resource_id body e w :
  valid_request event resource_id body →
  get_item_fault w = Some e →
  ∃ w',
    handler event w =
      (Returned
         match e with
         | ClientError _ _ message =>
             failure_response "Failed to update resource" message
         | _ => failure_response "Internal server error" (exn_str e)
         end, w')
    ∧ calls w' = calls w ++ [GetItem resource_id]
    ∧ table w' = table w.
Proof.
  intros Hvalid Hget.
  exists (write_stdout (log_line e) (log_call (GetItem resource_id) w)).
  split; [|done]. rewrite (handler_read_failed _ _ body e) by done.
  by destruct e.
Qed.

Lemma failed_read_is_500_witness :
  ∃ w',
    handler (H := sample_decoder) (request "r1" (object_text "title" "B"))
      (World {[ "r1" := r1 ]} reading (Some unreachable) None [] []) =
      (Returned (failure_response "Internal server error"
                   "Could not connect to the endpoint URL"), w')
    ∧ calls w' = [GetItem "r1"]
    ∧ table w' = {[ "r1" := r1 ]}.
Proof.
  refine (failed_read_is_500 (H := sample_decoder)
            (request "r1" (object_text "title" "B")) "r1"
            (PDict {[ "title" := PStr "B" ]}) unreachable
            (World {[ "r1" := r1 ]} reading (Some unreachable) None [] [])
            _ _).
  - split; [|split].
    + exists {[ "resourceId" := "r1" ]}.
      split; [reflexivity|]. split; [reflexivity|discriminate].
    + exists (object_text "title" "B"). split; reflexivity.
    + reflexivity.
  - reflexivity.
Defined.

(** X9.  When the write fails with an exception that is not a [ClientError],
    the handler answers 500 "Internal server error" with the text of the
    exception, and the table is as it was. *)
Theorem unexpected_write_failure_is_500 `{JsonDecoder} event w result w' e :
  handler event w = (result, w') →
  update_item_fault w = Some e →
  (∀ operation code message, e ≠ ClientError operation code message) →
  writes w' ≠ writes w →
  result = Returned (failure_response "Internal server error" (exn_str e))
  ∧ table w' = table w.
Proof.
  intros Hrun Hfault Hother Hwrites.
  destruct (write_issued_inv event w)
    as (rid & body & old & fields & expression & values & _ & _ & _ & _ & _
        & Hrun'); [by rewrite Hrun|].
  rewrite Hrun, Hfault in Hrun'. simpl in Hrun'. injection Hrun' as -> ->.
  split; [|done]. destruct e; try done. by destruct (Hother operation code message).
Qed.

Lemma unexpected_write_failure_is_500_witness :
  (handler (H := sample_decoder) (request "r1" (object_text "title" "B"))
     (World {[ "r1" := r1 ]} reading None (Some unreachable) [] [])).1
    = Returned (failure_response "Internal server error"
                  "Could not connect to the endpoint URL")
  ∧ table (handler (H := sample_decoder)
             (request "r1" (object_text "title" "B"))
             (World {[ "r1" := r1 ]} reading None (Some unreachable) [] [])).2
    = {[ "r1" := r1 ]}.
Proof.
  refine (unexpected_write_failure_is_500 (H := sample_decoder)
            (request "r1" (object_text "title" "B"))
            (World {[ "r1" := r1 ]} reading None (Some unreachable) [] [])
            _ _ unreachable _ _ _ _).
  - apply surjective_pairing.
  - reflexivity.
  - discriminate.
  - vm_compute. discriminate.
Defined.

(** The values Python takes as false. *)
Lemma falsy_values (v : pyval) :
  truthy v = false ↔
  v = PNone ∨ v = PBool false ∨ v = PInt 0 ∨ (∃ s, v = PFloat (S754_zero s))
  ∨ v = PStr "" ∨ v = PList [] ∨ v = PDict ∅.
Proof.
  split.
  - destruct v as [|[]|n|[]|s|[|]|d]; simpl; try done; eauto 10.
    + rewrite negb_false_iff, Z.eqb_eq. intros ->. auto.
    + destruct s; [auto 10|done].
    + rewrite negb_false_iff, bool_decide_eq_true. intros ->. auto 10.
  - intros [->|[->|[->|[[s ->]|[->|[->| ->]]]]]]; try done.
Qed.

(** X10.  For a request with a [resourceId], the answer is the 400 "Request
    body cannot be empty" exactly when the body parses to a value Python
    takes as false: [null], [false], [0], a float zero, the empty string, the
    empty list or the empty object. *)
Theorem falsy_body_is_rejected `{JsonDecoder} event resource_id body w :
  has_resource_id event resource_id →
  parsed_body event body →
  handler event w
    = (Returned (error_response 400 "Request body cannot be empty"), w)
  ↔ body = PNone ∨ body = PBool false ∨ body = PInt 0
    ∨ (∃ s, body = PFloat (S754_zero s))
    ∨ body = PStr "" ∨ body = PList [] ∨ body = PDict ∅.
Proof.
  intros Hid Hbody. rewrite <- falsy_values. split.
  - intros Hrun. destruct (truthy body) eqn:Htruthy; [|done].
    assert (Hvalid : valid_request event resource_id body) by done.
    apply handler_inv in Hrun.
    inversion Hrun as [|message Hrejected|? ? e| |? ? ? e|? ? ? ? ? ? e| |];
      subst; try (by destruct e).
    by destruct (valid_not_rejected _ _ _ _ Hvalid Hrejected).
  - intros Htruthy. by eapply rejected_400, empty_body.
Qed.

Lemma falsy_body_is_rejected_witness :
  handler (H := more_decoder) (request "r1" "0")
    (healthy {[ "r1" := r1 ]} reading)
    = (Returned (error_response 400 "Request body cannot be empty"),
       healthy {[ "r1" := r1 ]} reading)
  ↔ PInt 0 = PNone ∨ PInt 0 = PBool false ∨ PInt 0 = PInt 0
    ∨ (∃ s, PInt 0 = PFloat (S754_zero s))
    ∨ PInt 0 = PStr "" ∨ PInt 0 = PList [] ∨ PInt 0 = PDict ∅.
Proof.
  refine (falsy_body_is_rejected (H := more_decoder) (request "r1" "0") "r1"
            (PInt 0) (healthy {[ "r1" := r1 ]} reading) _ _).
  - exists {[ "resourceId" := "r1" ]}.
    split; [reflexivity|]. split; [reflexivity|discriminate].
  - exists "0". split; reflexivity.
Defined.

(** ** Bodies that are not objects *)




(** An update that cannot be built: nothing is written. *)
Lemma handler_unbuilt `{JsonDecoder} event resource_id body old e w :
  valid_request event resource_id body →
  get_item_fault w = None → table w !! resource_id = Some old →
  assignments (utcnow_isoformat w) body = Raises (TypeError e) →
  ∃ w',
    handler event w
      = (Returned (failure_response "Internal server error" e), w')
    ∧ calls w' = calls w ++ [GetItem resource_id]
    ∧ table w' = table w.
Proof.
  intros Hvalid Hget Hold Hfields.
  rewrite (handler_bad_body _ _ _ old (TypeError e)) by done. by eexists.
Qed.

(** X11.  A body that parses to [true] or to a number passes validation.
    When the record exists, testing the body for [title] raises [TypeError],
    and the handler answers 500 "Internal server error" with its message,
    after the read and without a write. *)
Theorem scalar_body_is_500 `{JsonDecoder} event resource_id body old w :
  valid_request event resource_id body →
  body = PBool true ∨ (∃ n, body = PInt n) ∨ (∃ f, body = PFloat f) →
  get_item_fault w = None →
  table w !! resource_id = Some old →
  ∃ details w',
    py_in "title" body = Raises (TypeError details)
    ∧ handler event w
      = (Returned (failure_response "Internal server error" details), w')
    ∧ calls w' = calls w ++ [GetItem resource_id]
    ∧ table w' = table w.
Proof.
  intros Hvalid Hscalar Hget Hold.
  assert (∃ details, py_in "title" body = Raises (TypeError details))
    as [details Hin].
  { destruct Hscalar as [->|[[n ->]|[f ->]]]; by eexists. }
  exists details.
  destruct (handler_unbuilt event resource_id body old details w)
    as (w' & ? & ? & ?); [done..| |by exists w'].
  unfold assignments, requested. by rewrite Hin.
Qed.

Lemma scalar_body_is_500_witness :
  ∃ details w',
    py_in "title" (PBool true) = Raises (TypeError details)
    ∧ handler (H := more_decoder) (request "r1" "true")
        (healthy {[ "r1" := r1 ]} reading)
      = (Returned (failure_response "Internal server error" details), w')
    ∧ calls w' = [GetItem "r1"]
    ∧ table w' = {[ "r1" := r1 ]}.
Proof.
  refine (scalar_body_is_500 (H := more_decoder) (request "r1" "true") "r1"
            (PBool true) r1 (healthy {[ "r1" := r1 ]} reading) _ _ _ _).
  - split; [|split].
    + exists {[ "resourceId" := "r1" ]}.
      split; [reflexivity|]. split; [reflexivity|discriminate].
    + exists "true". split; reflexivity.
    + reflexivity.
  - left. reflexivity.
  - reflexivity.
  - reflexivity.
Defined.









(** X14.  An event without a [body] key is handled as the body [{}]: the
    request is rejected with 400 "Request body cannot be empty" and no store
    call. *)
Theorem missing_body_is_empty `{JsonDecoder} event resource_id w :
  has_resource_id event resource_id →
  Event.body event = Absent →
  handler event w
    = (Returned (error_response 400 "Request body cannot be empty"), w).
Proof.
  intros Hid Hbody. apply rejected_400.
  apply (empty_body _ resource_id (PDict ∅)); [done| |done].
  exists "{}". split; [|apply json_loads_empty_object].
  unfold body_text. by rewrite Hbody.
Qed.

Lemma missing_body_is_empty_witness :
  handler (H := sample_decoder)
    (Event.make (Present (Some {[ "resourceId" := "r1" ]})) Absent)
    (healthy {[ "r1" := r1 ]} reading)
    = (Returned (error_response 400 "Request body cannot be empty"),
       healthy {[ "r1" := r1 ]} reading).
Proof.
  refine (missing_body_is_empty (H := sample_decoder)
            (Event.make (Present (Some {[ "resourceId" := "r1" ]})) Absent)
            "r1" (healthy {[ "r1" := r1 ]} reading) _ _).
  - exists {[ "resourceId" := "r1" ]}.
    split; [reflexivity|]. split; [reflexivity|discriminate].
  - reflexivity.
Defined.

(** X15.  Whenever the handler answers 200, the body of the response is the
    record the table now holds for the [resourceId] of the request, and its
    [updatedAt] is the clock reading of the invocation followed by [Z]. *)
Theorem success_body_is_stored_record `{JsonDecoder} event w response w' :
  handler event w = (Returned response, w') →
  Response.statusCode response = 200 →
  ∃ resource_id new,
    has_resource_id event resource_id
    ∧ table w' !! resource_id = Some new
    ∧ Response.body response = json_dumps (PDict new)
    ∧ new !! "updatedAt" = Some (PStr (utcnow_isoformat w +:+ "Z")).
Proof.
  intros Hrun%handler_inv Hstatus.
  inversion Hrun as [| |? ? e| |? ? ? e|? ? ? ? ? ? e
                    |rid body old fields ? ? [Hid _] _ _ Hfields|];
    subst; try discriminate; try (by destruct e).
  exists rid, (merge fields old). split; [done|].
  split; [apply lookup_insert_eq|]. split; [done|].
  apply lookup_merge_set; [by eapply assignments_NoDup|].
  apply assignments_shape in Hfields as (title & description & _ & _ & ->).
  apply elem_of_cons. by left.
Qed.

Lemma success_body_is_stored_record_witness :
  ∃ resource_id new,
    has_resource_id (request "r1" (object_text "foo" "bar")) resource_id
    ∧ table (handler (H := sample_decoder)
               (request "r1" (object_text "foo" "bar"))
               (healthy {[ "r1" := r1 ]} reading)).2 !! resource_id
      = Some new
    ∧ Response.body
        (Response.make 200 cors_headers
           (json_dumps (PDict (<["updatedAt" := PStr (reading +:+ "Z")]> r1))))
      = json_dumps (PDict new)
    ∧ new !! "updatedAt" = Some (PStr (reading +:+ "Z")).
Proof.
  refine (success_body_is_stored_record (H := sample_decoder)
            (request "r1" (object_text "foo" "bar"))
            (healthy {[ "r1" := r1 ]} reading) _ _ _ _).
  - vm_compute. reflexivity.
  - reflexivity.
Defined.

(** X16.  The handler answers 404 only when the request passed validation,
    the store served the read, and the table holds no record for the
    [resourceId]: a store failure is never reported as "not found". *)
Theorem not_found_only_when_missing `{JsonDecoder} event w response w' :
  handler event w = (Returned response, w') →
  Response.statusCode response = 404 →
  ∃ resource_id body,
    valid_request event resource_id body
    ∧ get_item_fault w = None
    ∧ table w !! resource_id = None
    ∧ response
      = error_response 404
          ("Resource with id '" +:+ resource_id +:+ "' not found").
Proof.
  intros Hrun%handler_inv Hstatus.
  inversion Hrun as [| |? ? e|rid body|? ? ? e|? ? ? ? ? ? e| |];
    subst; try discriminate; try (by destruct e).
  by exists rid, body.
Qed.

Lemma not_found_only_when_missing_witness :
  ∃ resource_id body,
    valid_request (H := sample_decoder)
      (request "r2" (object_text "title" "X")) resource_id body
    ∧ get_item_fault (healthy {[ "r1" := r1 ]} reading) = None
    ∧ table (healthy {[ "r1" := r1 ]} reading) !! resource_id = None
    ∧ error_response 404 (not_found_message "r2")
      = error_response 404
          ("Resource with id '" +:+ resource_id +:+ "' not found").
Proof.
  refine (not_found_only_when_missing (H := sample_decoder)
            (request "r2" (object_text "title" "X"))
            (healthy {[ "r1" := r1 ]} reading)
            (error_response 404 (not_found_message "r2")) _ _ _).
  - vm_compute. reflexivity.
  - reflexivity.
Defined.

(** X17.  The handler answers 400 only when validation rejected the request,
    with one of its three messages, and then it has made no store call and
    printed nothing. *)
Theorem bad_request_only_when_rejected `{JsonDecoder} event w response w' :
  handler event w = (Returned response, w') →
  Response.statusCode response = 400 →
  w' = w
  ∧ ∃ message,
      rejected event message
      ∧ response = error_response 400 message
      ∧ message ∈ ["Missing resourceId in path";
                   "Invalid JSON in request body";
                   "Request body cannot be empty"].
Proof.
  intros Hrun%handler_inv Hstatus.
  inversion Hrun as [|message Hrejected|? ? e| |? ? ? e|? ? ? ? ? ? e| |];
    subst; try discriminate; try (by destruct e).
  split; [done|]. exists message. split; [done|]. split; [done|].
  destruct Hrejected; rewrite !elem_of_cons; auto.
Qed.

Lemma bad_request_only_when_rejected_witness :
  healthy {[ "r1" := r1 ]} reading = healthy {[ "r1" := r1 ]} reading
  ∧ ∃ message,
      rejected (H := sample_decoder) (request "r1" "{title") message
      ∧ error_response 400 "Invalid JSON in request body"
        = error_response 400 message
      ∧ message ∈ ["Missing resourceId in path";
                   "Invalid JSON in request body";
                   "Request body cannot be empty"].
Proof.
  refine (bad_request_only_when_rejected (H := sample_decoder)
            (request "r1" "{title") (healthy {[ "r1" := r1 ]} reading)
            (error_response 400 "Invalid JSON in request body") _ _ _).
  - vm_compute. reflexivity.
  - reflexivity.
Defined.

(** ** Successive updates *)

(** X18.  Two successful updates of one record with object bodies, one after
    the other.  The record ends with the second clock reading as [updatedAt];
    its [title] (and likewise its [description]) is the one of the second body
    when that body has the key, else the one of the first body when that has
    it, else the original one; every other field is the original one. *)
Theorem successive_updates_compose `{JsonDecoder} event1 event2 resource_id
    (d1 d2 old : item) w now2 :
  has_resource_id event1 resource_id →
  has_resource_id event2 resource_id →
  parsed_body event1 (PDict d1) → d1 ≠ ∅ →
  parsed_body event2 (PDict d2) → d2 ≠ ∅ →
  table w !! resource_id = Some old →
  get_item_fault w = None → update_item_fault w = None →
  let w1 := (handler event1 w).2 in
  let w2 := (handler event2 (later now2 None None w1)).2 in
  ∃ final,
    table w2 !! resource_id = Some final
    ∧ final !! "updatedAt" = Some (PStr (now2 +:+ "Z"))
    ∧ (∀ k, k = "title" ∨ k = "description" →
            final !! k
            = match d2 !! k with
              | Some v => Some v
              | None => match d1 !! k with
                        | Some v => Some v
                        | None => old !! k
                        end
              end)
    ∧ ∀ k, k ≠ "updatedAt" → k ≠ "title" → k ≠ "description" →
           final !! k = old !! k.
Proof.
  intros Hid1 Hid2 Hbody1 Hne1 Hbody2 Hne2 Hold Hget Hupdate. simpl.
  destruct (dict_update_run event1 resource_id d1 old w)
    as (new1 & Htable1 & _ & Hnew1); [done..|].
  destruct (dict_update_run event2 resource_id d2 new1
              (later now2 None None (handler event1 w).2))
    as (new2 & Htable2 & _ & Hnew2); [done..| |done|done|].
  { simpl. rewrite Htable1. apply lookup_insert_eq. }
  simpl in *. exists new2. split; [rewrite Htable2; apply lookup_insert_eq|].
  split; [by rewrite Hnew2|]. split.
  - intros k Hk. rewrite Hnew2, Hnew1.
    destruct (decide (k = "updatedAt")) as [->|_];
      [by destruct Hk|].
    destruct (decide (k = "title" ∨ k = "description")); done.
  - intros k Hu Ht Hd. rewrite Hnew2, Hnew1.
    destruct (decide (k = "updatedAt")); [done|].
    destruct (decide (k = "title" ∨ k = "description")); [|done].
    intuition.
Qed.

Lemma successive_updates_compose_witness :
  let w1 := (handler (H := more_decoder)
               (request "r1" (object_text "title" "B"))
               (healthy {[ "r1" := r1 ]} reading)).2 in
  let w2 := (handler (H := more_decoder)
               (request "r1" (object_text "description" "e"))
               (later reading' None None w1)).2 in
  ∃ final,
    table w2 !! "r1" = Some final
    ∧ final !! "updatedAt" = Some (PStr (reading' +:+ "Z"))
    ∧ (∀ k, k = "title" ∨ k = "description" →
            final !! k
            = match ({[ "description" := PStr "e" ]} : item) !! k with
              | Some v => Some v
              | None => match ({[ "title" := PStr "B" ]} : item) !! k with
                        | Some v => Some v
                        | None => r1 !! k
                        end
              end)
    ∧ ∀ k, k ≠ "updatedAt" → k ≠ "title" → k ≠ "description" →
           final !! k = r1 !! k.
Proof.
  refine (successive_updates_compose (H := more_decoder)
            (request "r1" (object_text "title" "B"))
            (request "r1" (object_text "description" "e")) "r1"
            {[ "title" := PStr "B" ]} {[ "description" := PStr "e" ]} r1
            (healthy {[ "r1" := r1 ]} reading) reading' _ _ _ _ _ _ _ _ _).
  - exists {[ "resourceId" := "r1" ]}.
    split; [reflexivity|]. split; [reflexivity|discriminate].
  - exists {[ "resourceId" := "r1" ]}.
    split; [reflexivity|]. split; [reflexivity|discriminate].
  - exists (object_text "title" "B"). split; reflexivity.
  - discriminate.
  - exists (object_text "description" "e"). split; reflexivity.
  - discriminate.
  - reflexivity.
  - reflexivity.
  - reflexivity.
Defined.

(** ** Validation *)

(** X21.  The three checks, in order.  A request whose path parameters are
    there without a non-empty [resourceId] gets 400 "Missing resourceId in
    path"; otherwise one on whose body [json.loads] raises [JSONDecodeError]
    gets 400 "Invalid JSON in request body"; otherwise one whose body parses
    as the empty object gets 400 "Request body cannot be empty".  In each
    case the world is left as it was: no read, no write, nothing printed. *)
Theorem validation_short_circuits `{JsonDecoder} event w :
  (no_resource_id event →
   handler event w
     = (Returned (error_response 400 "Missing resourceId in path"), w))
  ∧ (∀ resource_id text msg,
       has_resource_id event resource_id →
       body_text event = Some text →
       json_loads text = Raises (JSONDecodeError msg) →
       handler event w
         = (Returned (error_response 400 "Invalid JSON in request body"), w))
  ∧ (∀ resource_id,
       has_resource_id event resource_id →
       parsed_body event (PDict ∅) →
       handler event w
         = (Returned (error_response 400 "Request body cannot be empty"), w)).
Proof.
  split; [|split].
  - intros. by apply rejected_400, missing_resource_id.
  - intros. by eapply rejected_400, invalid_json.
  - intros. by eapply rejected_400, empty_body.
Qed.

Lemma validation_short_circuits_witness :
  handler (H := sample_decoder) (Event.make Absent Absent)
    (healthy {[ "r1" := r1 ]} reading)
    = (Returned (error_response 400 "Missing resourceId in path"),
       healthy {[ "r1" := r1 ]} reading)
  ∧ handler (H := sample_decoder) (request "r1" "{title")
      (healthy {[ "r1" := r1 ]} reading)
    = (Returned (error_response 400 "Invalid JSON in request body"),
       healthy {[ "r1" := r1 ]} reading)
  ∧ handler (H := sample_decoder) (request "r1" "{}")
      (healthy {[ "r1" := r1 ]} reading)
    = (Returned (error_response 400 "Request body cannot be empty"),
       healthy {[ "r1" := r1 ]} reading).
Proof.
  split; [|split].
  - apply (proj1 (validation_short_circuits (H := sample_decoder)
                    (Event.make Absent Absent)
                    (healthy {[ "r1" := r1 ]} reading))).
    exists ∅. split; [reflexivity|]. left. reflexivity.
  - apply (proj1 (proj2 (validation_short_circuits (H := sample_decoder)
                    (request "r1" "{title")
                    (healthy {[ "r1" := r1 ]} reading)))
             "r1" "{title"
             "Expecting property name enclosed in double quotes").
    + exists {[ "resourceId" := "r1" ]}.
      split; [reflexivity|]. split; [reflexivity|discriminate].
    + reflexivity.
    + reflexivity.
  - apply (proj2 (proj2 (validation_short_circuits (H := sample_decoder)
                    (request "r1" "{}") (healthy {[ "r1" := r1 ]} reading)))
             "r1").
    + exists {[ "resourceId" := "r1" ]}.
      split; [reflexivity|]. split; [reflexivity|discriminate].
    + exists "{}". split; reflexivity.
Defined.



(** ** Records that hold a number *)






